(** * AD9361 IIO streaming loopback: a shallow embedding of
      [ad9361-iiostream.c] and the properties of its specification.

    The program is a sequence of libiio calls around two pieces of
    arithmetic: the tone written into the transmit buffer and the
    magnitude/phase printed for every received sample.  The embedding
    follows the C text function by function.

    - C integers are [Z] with the wrap-around of their width written out.
    - Pointers and handles are addresses in [Z]; [0] is [NULL].
    - Buffer memory is byte addressed, 16-bit accesses are little endian.
    - libiio, libm and the C [double] type are not part of the repository.
      libiio is an oracle ([env]) answering the n-th library call; the
      [double] operations are the fields of [Numerics], with two instances:
      IEEE binary64 ([ieee], on [PrimFloat]) and exact real arithmetic
      ([ideal], on [R]).
    - Every observable action (library call, printed line, file row) is
      appended to one chronological [trace]. *)

From Stdlib Require Import ZArith List String Ascii Bool Lia.
From Stdlib Require Import Reals Lra Machin.
From Stdlib Require Floats Uint63.
Import PrimFloat FloatOps SpecFloat.
Import ListNotations.

Local Open Scope Z_scope.

(** ** Machine integers *)

Module Cint.

(** Two's complement reading of the low [w] bits of [x]. *)
Definition wrap_signed (w x : Z) : Z :=
  (x + 2 ^ (w - 1)) mod 2 ^ w - 2 ^ (w - 1).

Definition to_int16 : Z -> Z := wrap_signed 16.   (* short, int16_t *)
Definition to_int32 : Z -> Z := wrap_signed 32.   (* int *)
Definition to_int64 : Z -> Z := wrap_signed 64.   (* long long, ssize_t, ptrdiff_t *)
Definition to_size (x : Z) : Z := x mod 2 ^ 64.   (* size_t *)

Definition int16_range (x : Z) : Prop := -32768 <= x <= 32767.
Definition int32_range (x : Z) : Prop := -2147483648 <= x <= 2147483647.

(** [int] arithmetic as compiled for a 32-bit two's complement [int];
    the C standard leaves the overflowing cases undefined. *)
Definition int_add (a b : Z) : Z := to_int32 (a + b).
Definition int_mul (a b : Z) : Z := to_int32 (a * b).

Lemma wrap_signed_id w x :
  0 < w -> - 2 ^ (w - 1) <= x < 2 ^ (w - 1) -> wrap_signed w x = x.
Proof.
  intros Hw Hx. unfold wrap_signed.
  assert (E : 2 ^ w = 2 * 2 ^ (w - 1)).
  { replace w with (Z.succ (w - 1)) at 1 by lia. apply Z.pow_succ_r. lia. }
  rewrite Z.mod_small by lia. lia.
Qed.

Lemma to_int16_id x : int16_range x -> to_int16 x = x.
Proof. unfold int16_range. intros H. apply wrap_signed_id; lia. Qed.

Lemma to_int32_id x : int32_range x -> to_int32 x = x.
Proof. unfold int32_range. intros H. apply wrap_signed_id; lia. Qed.

Lemma to_int16_range x : int16_range (to_int16 x).
Proof.
  unfold to_int16, wrap_signed, int16_range.
  pose proof (Z.mod_pos_bound (x + 2 ^ (16 - 1)) (2 ^ 16) ltac:(lia)).
  change (2 ^ (16 - 1)) with 32768 in *. change (2 ^ 16) with 65536 in *. lia.
Qed.

(** Masking with [0xFFF0] keeps bits 4..15. *)
Lemma land_FFF0 q : Z.land q 65520 = ((q / 16) mod 4096) * 16.
Proof.
  transitivity (Z.shiftl (Z.land (Z.shiftr q 4) (Z.ones 12)) 4).
  - change 65520 with (Z.shiftl (Z.ones 12) 4).
    apply Z.bits_inj'. intros n Hn.
    rewrite Z.land_spec.
    destruct (Z.ltb_spec n 4) as [Hlt | Hge].
    + rewrite !Z.shiftl_spec_low by lia. apply andb_false_r.
    + rewrite !Z.shiftl_spec_high by lia.
      rewrite Z.land_spec, Z.shiftr_spec by lia.
      replace (n - 4 + 4) with n by lia. reflexivity.
  - rewrite Z.shiftl_mul_pow2, Z.land_ones, Z.shiftr_div_pow2 by lia.
    reflexivity.
Qed.


Lemma mask_low_bits_clear q : Z.land (to_int16 (Z.land q 65520)) 15 = 0.
Proof.
  change 15 with (Z.ones 4). rewrite Z.land_ones by lia.
  unfold to_int16, wrap_signed. rewrite land_FFF0.
  change (2 ^ (16 - 1)) with 32768. change (2 ^ 16) with 65536.
  change (2 ^ 4) with 16.
  set (a := (q / 16) mod 4096).
  rewrite (Z.mod_eq (a * 16 + 32768) 65536) by lia.
  set (k := (a * 16 + 32768) / 65536).
  replace (a * 16 + 32768 - 65536 * k - 32768) with ((a - 4096 * k) * 16) by lia.
  apply Z.mod_mul. lia.
Qed.

End Cint.
Import Cint.

(** ** Decimal text, as printed by [%d] and [%.4f] *)

Module Text.

Definition digit (n : Z) : ascii := ascii_of_nat (48 + Z.to_nat (n mod 10)).

Fixpoint digits (fuel : nat) (n : Z) (acc : string) : string :=
  match fuel with
  | O => acc
  | S fuel' =>
      let acc' := String (digit n) acc in
      if n <? 10 then acc' else digits fuel' (n / 10) acc'
  end.

(** Decimal numeral of [n >= 0]. *)
Definition show_nat (n : Z) : string :=
  digits (S (Z.to_nat (Z.log2 n))) n ""%string.

(** [%d] and [%lld]. *)
Definition show_int (z : Z) : string :=
  if z <? 0 then ("-" ++ show_nat (- z))%string else show_nat z.

(** The four digits after the decimal point. *)
Definition pad4 (k : Z) : string :=
  String (digit (k / 1000)) (String (digit (k / 100))
    (String (digit (k / 10)) (String (digit k) ""%string))).

(** [n] ten-thousandths, with its sign, in the layout of [%.4f]. *)
Definition fixed4 (negative : bool) (n : Z) : string :=
  ((if negative then "-" else "") ++ show_nat (n / 10000) ++ "." ++ pad4 (n mod 10000))%string.

(** Nearest integer to [num / den], ties to even ([den > 0], [num >= 0]). *)
Definition div_half_even (num den : Z) : Z :=
  let q := num / den in
  let r := num mod den in
  if 2 * r <? den then q
  else if den <? 2 * r then q + 1
  else if Z.even q then q else q + 1.

End Text.

(** ** The C [double] type and libm

    The operations of [double] that the program uses.  [d_to_float] is the
    effect of storing a value in a [float] variable, [d_trunc] the
    conversion to an integer type (toward zero; undefined in C when the
    value is not finite), [d_fmt4] the text printed by [%.4f]. *)

Class Numerics : Type := {
  dbl : Type;
  d_of_Z : Z -> dbl;
  d_pi : dbl;
  d_add : dbl -> dbl -> dbl;
  d_mul : dbl -> dbl -> dbl;
  d_div : dbl -> dbl -> dbl;
  d_to_float : dbl -> dbl;
  d_trunc : dbl -> Z;
  d_cos : dbl -> dbl;
  d_sqrt : dbl -> dbl;
  d_atan : dbl -> dbl;
  d_fmt4 : dbl -> string
}.

(** *** IEEE binary64 *)

Module IEEE.

(** The two functions taken from libm. *)
Record libm : Type := { m_cos : float -> float; m_atan : float -> float }.

Definition of_Z (z : Z) : float :=
  if z <? 0 then PrimFloat.opp (PrimFloat.of_uint63 (Uint63.of_Z (- z)))
  else PrimFloat.of_uint63 (Uint63.of_Z z).

(** [M_PI] of math.h. *)
Definition M_PI : float := 0x1.921fb54442d18p+1%float.

Definition signed (s : bool) (m : positive) : Z := if s then Z.neg m else Z.pos m.

(** Rounding to binary32 and back. *)
Definition to_float (x : float) : float :=
  match Prim2SF x with
  | S754_finite s m e =>
      match binary_normalize 24 128 (signed s m) e s with
      | S754_finite s' m' e' => SF2Prim (binary_normalize 53 1024 (signed s' m') e' s')
      | y => SF2Prim y
      end
  | _ => x
  end.

Definition trunc (x : float) : Z :=
  match Prim2SF x with
  | S754_finite s m e =>
      let v := if 0 <=? e then Z.pos m * 2 ^ e else Z.pos m / 2 ^ (- e) in
      if s then - v else v
  | _ => 0
  end.

(** [%.4f]: the exact value times 10^4, rounded to nearest even.  The
    sign of a NaN is not represented in [float]; its text is ["nan"]. *)
Definition fmt4 (x : float) : string :=
  match Prim2SF x with
  | S754_zero s => Text.fixed4 s 0
  | S754_infinity s => if s then "-inf"%string else "inf"%string
  | S754_nan => "nan"%string
  | S754_finite s m e =>
      Text.fixed4 s
        (if 0 <=? e then Z.pos m * 2 ^ e * 10000
         else Text.div_half_even (Z.pos m * 10000) (2 ^ (- e)))
  end.

End IEEE.

#[export] Instance ieee (lm : IEEE.libm) : Numerics := {|
  dbl := float;
  d_of_Z := IEEE.of_Z;
  d_pi := IEEE.M_PI;
  d_add := PrimFloat.add;
  d_mul := PrimFloat.mul;
  d_div := PrimFloat.div;
  d_to_float := IEEE.to_float;
  d_trunc := IEEE.trunc;
  d_cos := IEEE.m_cos lm;
  d_sqrt := PrimFloat.sqrt;
  d_atan := IEEE.m_atan lm;
  d_fmt4 := IEEE.fmt4
|}.

(** *** Exact real arithmetic

    Every [double] operation taken as the exact operation on [R]; the
    rounding of [float] and [double] is left out. *)

Module Ideal.

Definition trunc (x : R) : Z :=
  if Rle_dec 0 x then Zfloor x else Zceil x.

Definition fmt4 (x : R) : string :=
  let y := (Rabs x * 10000)%R in
  let f := Zfloor y in
  let n := if Rlt_dec (y - IZR f) (/ 2) then f
           else if Rlt_dec (/ 2) (y - IZR f) then f + 1
           else if Z.even f then f else f + 1 in
  Text.fixed4 (if Rlt_dec x 0 then true else false) n.

End Ideal.

#[export] Instance ideal : Numerics := {|
  dbl := R;
  d_of_Z := IZR;
  d_pi := PI;
  d_add := Rplus;
  d_mul := Rmult;
  d_div := Rdiv;
  d_to_float := fun x => x;
  d_trunc := Ideal.trunc;
  d_cos := Rtrigo_def.cos;
  d_sqrt := R_sqrt.sqrt;
  d_atan := Ratan.atan;
  d_fmt4 := Ideal.fmt4
|}.

(** ** Events, the library oracle and the process state *)

(** RX is input, TX is output *)
Inductive iodev : Type := RX | TX.

Definition is_TX (d : iodev) : bool := match d with TX => true | RX => false end.

(** common RX and TX streaming params *)
Record stream_cfg : Type := {
  bw_hz : Z;        (* Analog bandwidth in Hz *)
  fs_hz : Z;        (* Baseband sample rate in Hz *)
  lo_hz : Z;        (* Local oscillator frequency in Hz *)
  gain : Z;         (* gain on rx, attenuation on tx *)
  rfport : string   (* Port name *)
}.

(** The libiio functions the program calls, with their arguments. *)
Inductive call : Type :=
| iio_create_default_context
| iio_create_context_from_uri (uri : string)
| iio_context_get_devices_count (c : Z)
| iio_context_find_device (c : Z) (name : string)
| iio_device_find_channel (dev : Z) (name : string) (output : bool)
| iio_channel_attr_write_longlong (chn : Z) (attr : string) (val : Z)
| iio_channel_attr_read_longlong (chn : Z) (attr : string)
| iio_channel_attr_write (chn : Z) (attr : string) (src : string)
| iio_channel_attr_read (chn : Z) (attr : string) (len : Z)
| iio_channel_enable (chn : Z)
| iio_channel_disable (chn : Z)
| iio_device_create_buffer (dev : Z) (samples_count : Z) (cyclic : bool)
| iio_buffer_destroy (buf : Z)
| iio_buffer_step (buf : Z)
| iio_buffer_end (buf : Z)
| iio_buffer_first (buf : Z) (chn : Z)
| iio_buffer_push (buf : Z)
| iio_buffer_refill (buf : Z)
| iio_context_destroy (c : Z).

Inductive stream : Type := Stdout | Stderr | File (name : string).

(** A printf argument; a [double] is kept as the text of its conversion. *)
Inductive arg : Type := AInt (z : Z) | AStr (s : string) | ADbl (text : string).

(** Observable actions.  Format strings are spelled as in the C source,
    escape sequences undecoded. *)
Inductive event : Type :=
| Call (c : call)
| Printf (to : stream) (fmt : string) (args : list arg)
| Perror (s : string)
| Fopen (name mode : string)
| Fclose (name : string)
| Signal (signum : Z) (handler : string).

(** The world outside the process.  [respond n c] is the value returned by
    the library call [c] when it is the [n]-th call of the run;
    [read_longlong n] and [read_string n] are what an attribute read stores
    through its result pointer; [refilled n] is the byte memory after a
    refill; [signals n] are the SIGINTs delivered before the [n]-th call. *)
Record env : Type := {
  respond : nat -> call -> Z;
  read_longlong : nat -> Z;
  read_string : nat -> string;
  refilled : nat -> Z -> Z;
  signals : nat -> list Z
}.

(** The globals of the program, the sample counter of [main], the byte
    memory, the number of library calls made and the trace. *)
Record state : Type := mkState {
  ctx : Z;
  rx0_i : Z;
  rx0_q : Z;
  tx0_i : Z;
  tx0_q : Z;
  rxbuf : Z;
  txbuf : Z;
  stop : bool;
  nrx : Z;
  mem : Z -> Z;
  clock : nat;
  trace : list event
}.

Definition set_ctx (v : Z) (s : state) : state :=
  mkState v (rx0_i s) (rx0_q s) (tx0_i s) (tx0_q s) (rxbuf s) (txbuf s)
          (stop s) (nrx s) (mem s) (clock s) (trace s).
Definition set_rx0_i (v : Z) (s : state) : state :=
  mkState (ctx s) v (rx0_q s) (tx0_i s) (tx0_q s) (rxbuf s) (txbuf s)
          (stop s) (nrx s) (mem s) (clock s) (trace s).
Definition set_rx0_q (v : Z) (s : state) : state :=
  mkState (ctx s) (rx0_i s) v (tx0_i s) (tx0_q s) (rxbuf s) (txbuf s)
          (stop s) (nrx s) (mem s) (clock s) (trace s).
Definition set_tx0_i (v : Z) (s : state) : state :=
  mkState (ctx s) (rx0_i s) (rx0_q s) v (tx0_q s) (rxbuf s) (txbuf s)
          (stop s) (nrx s) (mem s) (clock s) (trace s).
Definition set_tx0_q (v : Z) (s : state) : state :=
  mkState (ctx s) (rx0_i s) (rx0_q s) (tx0_i s) v (rxbuf s) (txbuf s)
          (stop s) (nrx s) (mem s) (clock s) (trace s).
Definition set_rxbuf (v : Z) (s : state) : state :=
  mkState (ctx s) (rx0_i s) (rx0_q s) (tx0_i s) (tx0_q s) v (txbuf s)
          (stop s) (nrx s) (mem s) (clock s) (trace s).
Definition set_txbuf (v : Z) (s : state) : state :=
  mkState (ctx s) (rx0_i s) (rx0_q s) (tx0_i s) (tx0_q s) (rxbuf s) v
          (stop s) (nrx s) (mem s) (clock s) (trace s).
Definition set_stop (v : bool) (s : state) : state :=
  mkState (ctx s) (rx0_i s) (rx0_q s) (tx0_i s) (tx0_q s) (rxbuf s) (txbuf s)
          v (nrx s) (mem s) (clock s) (trace s).
Definition set_nrx (v : Z) (s : state) : state :=
  mkState (ctx s) (rx0_i s) (rx0_q s) (tx0_i s) (tx0_q s) (rxbuf s) (txbuf s)
          (stop s) v (mem s) (clock s) (trace s).
Definition set_mem (v : Z -> Z) (s : state) : state :=
  mkState (ctx s) (rx0_i s) (rx0_q s) (tx0_i s) (tx0_q s) (rxbuf s) (txbuf s)
          (stop s) (nrx s) v (clock s) (trace s).
Definition tick (s : state) : state :=
  mkState (ctx s) (rx0_i s) (rx0_q s) (tx0_i s) (tx0_q s) (rxbuf s) (txbuf s)
          (stop s) (nrx s) (mem s) (S (clock s)) (trace s).
Definition emit (e : event) (s : state) : state :=
  mkState (ctx s) (rx0_i s) (rx0_q s) (tx0_i s) (tx0_q s) (rxbuf s) (txbuf s)
          (stop s) (nrx s) (mem s) (clock s) (trace s ++ [e]).

(** The state of a freshly started process: the globals are [NULL], [stop]
    is [false]. *)
Definition initial (m : Z -> Z) : state :=
  mkState 0 0 0 0 0 0 0 false 0 m 0%nat [].

(** *** Byte memory *)

Definition load16 (m : Z -> Z) (a : Z) : Z :=
  to_int16 (m a mod 256 + 256 * (m (a + 1) mod 256)).

Definition store16 (m : Z -> Z) (a v : Z) : Z -> Z :=
  fun x => if x =? a then v mod 256
           else if x =? a + 1 then (v / 256) mod 256
           else m x.

(** ** The monad of the embedding: state, and the ways a process stops *)

Inductive halt : Type :=
| Exit (code : Z)      (* exit() *)
| Abort                (* abort() *)
| Spin.                (* a loop that never ends *)

Inductive outcome (A : Type) : Type :=
| Ret (a : A) (s : state)
| Halt (h : halt) (s : state).
Arguments Ret {A} a s.
Arguments Halt {A} h s.

Definition M (A : Type) : Type := state -> outcome A.

Definition ret {A} (a : A) : M A := fun s => Ret a s.

Definition bind {A B} (m : M A) (k : A -> M B) : M B :=
  fun s => match m s with
           | Ret a s' => k a s'
           | Halt h s' => Halt h s'
           end.

Definition gets {A} (f : state -> A) : M A := fun s => Ret (f s) s.
Definition modify (f : state -> state) : M unit := fun s => Ret tt (f s).
Definition stop_with {A} (h : halt) : M A := fun s => Halt h s.

Declare Scope monad_scope.
Delimit Scope monad_scope with monad.
Notation "x <- m ;; k" := (bind m (fun x => k))
  (at level 61, m at next level, right associativity) : monad_scope.
Notation "m ;; k" := (bind m (fun _ => k))
  (at level 61, right associativity) : monad_scope.
Notation "' pat <- m ;; k" := (bind m (fun x => match x with pat => k end))
  (at level 61, pat pattern, m at next level, right associativity) : monad_scope.
Local Open Scope monad_scope.

(** The final state and the trace of a run, however it ended. *)
Definition final {A} (o : outcome A) : state :=
  match o with Ret _ s => s | Halt _ s => s end.

Definition returns {A} (o : outcome A) : bool :=
  match o with Ret _ _ => true | Halt _ _ => false end.

Definition log (e : event) : M unit := modify (emit e).
Definition printf (to : stream) (fmt : string) (args : list arg) : M unit :=
  log (Printf to fmt args).

(** [for (p = first; p < p_end; p += p_inc) body], threading the locals that
    the body updates.  With [p_inc >= 1] the distance to [p_end] bounds the
    number of iterations; with [p_inc <= 0] a loop that is entered never
    ends. *)
Fixpoint for_ptr {A} (fuel : nat) (p p_end p_inc : Z)
    (body : Z -> A -> M A) (a : A) : M A :=
  if p <? p_end then
    match fuel with
    | O => stop_with Spin
    | S fuel' =>
        a' <- body p a ;; for_ptr fuel' (p + p_inc) p_end p_inc body a'
    end
  else ret a.

Definition ptr_fuel (p p_end p_inc : Z) : nat :=
  if 0 <? p_inc then Z.to_nat (p_end - p) else 0%nat.

(** [for (k = 0; k < n; k++) body]. *)
Fixpoint repeat_n (n : nat) (body : M unit) : M unit :=
  match n with
  | O => ret tt
  | S n' => body ;; repeat_n n' body
  end.

(** ** The program *)

Section Program.

Context {NU : Numerics}.
Variable E : env.

Definition SIGINT : Z := 2.
Definition source_file : string := "ad9361-iiostream.c".
Definition dquote : string := String (ascii_of_nat 34) EmptyString.

(** static void handle_sig(int sig) *)
Definition handle_sig (sig : Z) : M unit :=
  printf Stdout "Waiting for process to finish... Got signal %d\n" [AInt sig] ;;
  modify (set_stop true).

Fixpoint run_handlers (sigs : list Z) : M unit :=
  match sigs with
  | [] => ret tt
  | sig :: rest => handle_sig sig ;; run_handlers rest
  end.

(** One library call: the signals that arrived since the previous call
    are handled, the call is recorded, the oracle answers. *)
Definition iio (c : call) : M Z :=
  n <- gets clock ;;
  run_handlers (signals E n) ;;
  log (Call c) ;;
  modify tick ;;
  ret (respond E n c).

Definition iio_void (c : call) : M unit := iio c ;; ret tt.

(** if (p) { f(p); } *)
Definition if_set (p : Z) (f : Z -> call) : M unit :=
  if p =? 0 then ret tt else iio_void (f p).

(** cleanup and exit *)
Definition shutdown : M unit :=
  printf Stdout "* Destroying buffers\n" [] ;;
  b <- gets rxbuf ;; if_set b iio_buffer_destroy ;;
  b <- gets txbuf ;; if_set b iio_buffer_destroy ;;
  printf Stdout "* Disabling streaming channels\n" [] ;;
  c <- gets rx0_i ;; if_set c iio_channel_disable ;;
  c <- gets rx0_q ;; if_set c iio_channel_disable ;;
  c <- gets tx0_i ;; if_set c iio_channel_disable ;;
  c <- gets tx0_q ;; if_set c iio_channel_disable ;;
  printf Stdout "* Destroying context\n" [] ;;
  c <- gets ctx ;; if_set c iio_context_destroy ;;
  stop_with (Exit 0).

(** IIO_ENSURE(expr), used at source line [line] *)
Definition IIO_ENSURE (expr : bool) (line : Z) : M unit :=
  if expr then ret tt
  else printf Stderr "assertion failed (%s:%d)\n" [AStr source_file; AInt line] ;;
       stop_with Abort.

(** check return value of attr_write function *)
Definition errchk_fmt : string :=
  ("Error %d writing to channel \" ++ dquote ++ "%s\" ++ dquote
     ++ "\nvalue may not be supported.\n")%string.

Definition errchk (v : Z) (what : string) : M unit :=
  if v <? 0 then
    printf Stderr errchk_fmt [AInt v; AStr what] ;; shutdown
  else ret tt.

(** write attribute: long long int *)
Definition wr_ch_lli (chn : Z) (what : string) (val : Z) : M unit :=
  r <- iio (iio_channel_attr_write_longlong chn what val) ;;
  errchk (to_int32 r) what.

(** read attribute: long long int; the value read is returned *)
Definition rd_ch_lli (chn : Z) (what : string) : M Z :=
  n <- gets clock ;;
  r <- iio (iio_channel_attr_read_longlong chn what) ;;
  errchk (to_int32 r) what ;;
  ret (to_int64 (read_longlong E n)).

(** write attribute: string *)
Definition wr_ch_str (chn : Z) (what : string) (str : string) : M unit :=
  r <- iio (iio_channel_attr_write chn what str) ;;
  errchk (to_int32 (to_int64 r)) what.

(** read attribute: string; the text read is returned *)
Definition rd_ch_str (chn : Z) (what : string) (len : Z) : M string :=
  n <- gets clock ;;
  r <- iio (iio_channel_attr_read chn what len) ;;
  errchk (to_int32 (to_int64 r)) what ;;
  ret (read_string E n).

(** helper function generating channel names *)
Definition get_ch_name (type : string) (id : Z) : string :=
  (type ++ Text.show_int id)%string.

(** returns ad9361 phy device *)
Definition get_ad9361_phy : M Z :=
  c <- gets ctx ;;
  dev <- iio (iio_context_find_device c "ad9361-phy") ;;
  IIO_ENSURE (negb (dev =? 0)) 128 ;;
  ret dev.

(** finds AD9361 streaming IIO devices *)
Definition get_ad9361_stream_dev (d : iodev) : M (bool * Z) :=
  c <- gets ctx ;;
  match d with
  | TX => dev <- iio (iio_context_find_device c "cf-ad9361-dds-core-lpc") ;;
          ret (negb (dev =? 0), dev)
  | RX => dev <- iio (iio_context_find_device c "cf-ad9361-lpc") ;;
          ret (negb (dev =? 0), dev)
  end.

(** finds AD9361 streaming IIO channels *)
Definition get_ad9361_stream_ch (d : iodev) (dev : Z) (chid : Z) : M (bool * Z) :=
  chn <- iio (iio_device_find_channel dev (get_ch_name "voltage" chid) (is_TX d)) ;;
  chn <- (if chn =? 0
          then iio (iio_device_find_channel dev (get_ch_name "altvoltage" chid) (is_TX d))
          else ret chn) ;;
  ret (negb (chn =? 0), chn).

(** finds AD9361 phy IIO configuration channel with id chid *)
Definition get_phy_chan (d : iodev) (chid : Z) : M (bool * Z) :=
  match d with
  | RX => phy <- get_ad9361_phy ;;
          chn <- iio (iio_device_find_channel phy (get_ch_name "voltage" chid) false) ;;
          ret (negb (chn =? 0), chn)
  | TX => phy <- get_ad9361_phy ;;
          chn <- iio (iio_device_find_channel phy (get_ch_name "voltage" chid) true) ;;
          ret (negb (chn =? 0), chn)
  end.

(** finds AD9361 local oscillator IIO configuration channels *)
Definition get_lo_chan (d : iodev) : M (bool * Z) :=
  match d with
  | RX => phy <- get_ad9361_phy ;;
          chn <- iio (iio_device_find_channel phy (get_ch_name "altvoltage" 0) true) ;;
          ret (negb (chn =? 0), chn)
  | TX => phy <- get_ad9361_phy ;;
          chn <- iio (iio_device_find_channel phy (get_ch_name "altvoltage" 1) true) ;;
          ret (negb (chn =? 0), chn)
  end.

(** The gain block of [cfg_ad9361_streaming_ch] (source lines 188-201). *)
Definition cfg_gain (cfg : stream_cfg) (type : iodev) (chn : Z) : M unit :=
  match type with
  | TX =>
      wr_ch_lli chn "hardwaregain" (gain cfg) ;;
      ll <- rd_ch_lli chn "hardwaregain" ;;
      printf Stdout "* TX gain/attenuation value %lld\n" [AInt ll]
  | RX =>
      wr_ch_str chn "gain_control_mode" "manual" ;;
      buf <- rd_ch_str chn "gain_control_mode" 1024 ;;
      wr_ch_lli chn "hardwaregain" (gain cfg) ;;
      ll <- rd_ch_lli chn "hardwaregain" ;;
      printf Stdout "* RX gain is %lld, mode is %s\n" [AInt ll; AStr buf]
  end.

(** applies streaming configuration through IIO *)
Definition cfg_ad9361_streaming_ch (cfg : stream_cfg) (type : iodev) (chid : Z)
  : M bool :=
  printf Stdout "* Acquiring AD9361 phy channel %d\n" [AInt chid] ;;
  '(ok, chn) <- get_phy_chan type chid ;;
  if negb ok then ret false else
  wr_ch_str chn "rf_port_select" (rfport cfg) ;;
  wr_ch_lli chn "rf_bandwidth" (bw_hz cfg) ;;
  wr_ch_lli chn "sampling_frequency" (fs_hz cfg) ;;
  cfg_gain cfg type chn ;;
  printf Stdout "* Acquiring AD9361 %s lo channel\n"
         [AStr (if is_TX type then "TX" else "RX")] ;;
  '(ok, chn) <- get_lo_chan type ;;
  if negb ok then ret false else
  wr_ch_lli chn "frequency" (lo_hz cfg) ;;
  ret true.

(** *** main *)

(** helper macros *)
Definition d_half : dbl := d_div (d_of_Z 1) (d_of_Z 2).              (* .5 *)
Definition MHZ (x : dbl) : Z :=
  to_int64 (d_trunc (d_add (d_mul x (d_of_Z 1000000)) d_half)).
Definition GHZ (x : dbl) : Z :=
  to_int64 (d_trunc (d_add (d_mul x (d_of_Z 1000000000)) d_half)).

Definition rxcfg : stream_cfg := {|
  bw_hz := MHZ d_half;
  fs_hz := MHZ (d_of_Z 3);
  lo_hz := GHZ (d_div (d_of_Z 5) (d_of_Z 2));                        (* 2.5 *)
  gain := 50;
  rfport := "A_BALANCED"
|}.

Definition txcfg : stream_cfg := {|
  bw_hz := MHZ d_half;
  fs_hz := MHZ (d_of_Z 3);
  lo_hz := GHZ (d_div (d_of_Z 5) (d_of_Z 2));
  gain := -30;
  rfport := "A"
|}.

(** Source lines 259-266: [argv] includes the program name. *)
Definition acquire_context (argv : list string) : M unit :=
  printf Stdout "* Acquiring IIO context\n" [] ;;
  match argv with
  | [_] =>
      c <- iio iio_create_default_context ;;
      modify (set_ctx c) ;; IIO_ENSURE (negb (c =? 0)) 261
  | [_; uri] =>
      c <- iio (iio_create_context_from_uri uri) ;;
      modify (set_ctx c) ;; IIO_ENSURE (negb (c =? 0)) 264
  | _ => ret tt
  end ;;
  c <- gets ctx ;;
  n <- iio (iio_context_get_devices_count c) ;;
  IIO_ENSURE (0 <? n mod 2 ^ 32) 266.

(** Source lines 276-286. *)
Definition init_channels (rx tx : Z) : M unit :=
  printf Stdout "* Initializing AD9361 IIO streaming channels\n" [] ;;
  '(ok, c) <- get_ad9361_stream_ch RX rx 0 ;; modify (set_rx0_i c) ;; IIO_ENSURE ok 277 ;;
  '(ok, c) <- get_ad9361_stream_ch RX rx 1 ;; modify (set_rx0_q c) ;; IIO_ENSURE ok 278 ;;
  '(ok, c) <- get_ad9361_stream_ch TX tx 0 ;; modify (set_tx0_i c) ;; IIO_ENSURE ok 279 ;;
  '(ok, c) <- get_ad9361_stream_ch TX tx 1 ;; modify (set_tx0_q c) ;; IIO_ENSURE ok 280 ;;
  printf Stdout "* Enabling IIO streaming channels\n" [] ;;
  c <- gets rx0_i ;; iio_void (iio_channel_enable c) ;;
  c <- gets rx0_q ;; iio_void (iio_channel_enable c) ;;
  c <- gets tx0_i ;; iio_void (iio_channel_enable c) ;;
  c <- gets tx0_q ;; iio_void (iio_channel_enable c).

(** Source lines 288-300. *)
Definition create_buffers (rx tx : Z) : M unit :=
  printf Stdout "* Creating non-cyclic IIO buffers\n" [] ;;
  b <- iio (iio_device_create_buffer rx 256 false) ;;
  modify (set_rxbuf b) ;;
  (if b =? 0 then log (Perror "Could not create RX buffer") ;; shutdown else ret tt) ;;
  b <- iio (iio_device_create_buffer tx (256 * 4) false) ;;
  modify (set_txbuf b) ;;
  (if b =? 0 then log (Perror "Could not create TX buffer") ;; shutdown else ret tt).

(** The tone: source lines 314-317 and 329-333. *)
Definition freq : dbl :=
  d_to_float (d_mul (d_mul (d_of_Z 2) d_pi) (d_of_Z 50000)).  (* 2*pi*50KHz *)
Definition ampl : dbl := d_of_Z 48.

Definition tx_sample (i : dbl) : Z * Z :=
  let ipart := to_int16 0 in
  let qpart := to_int16 (d_trunc (d_mul (d_mul ampl (d_cos (d_mul freq i))) (d_of_Z 16))) in
  (to_int16 (Z.land ipart 65520), to_int16 (Z.land qpart 65520)).

(** One iteration of the fill loop, source lines 325-338. *)
Definition tx_body (cfg : stream_cfg) (p_dat : Z) (i : dbl) : M dbl :=
  let iq := tx_sample i in
  modify (fun s => set_mem (store16 (mem s) p_dat (fst iq)) s) ;;
  modify (fun s => set_mem (store16 (mem s) (p_dat + 2) (snd iq)) s) ;;
  m <- gets mem ;;
  printf (File "input.csv") "%d, %d\n"
         [AInt (load16 m p_dat); AInt (load16 m (p_dat + 2))] ;;
  ret (d_add i (d_div (d_of_Z 1) (d_of_Z (fs_hz cfg)))).

(** Source lines 317-339: fill the transmit buffer with a sine wave. *)
Definition tx_fill (cfg : stream_cfg) : M unit :=
  let i := d_div (d_of_Z 1) (d_of_Z (fs_hz cfg)) in
  b <- gets txbuf ;;
  p_inc <- iio (iio_buffer_step b) ;;
  p_end <- iio (iio_buffer_end b) ;;
  c <- gets tx0_i ;;
  first <- iio (iio_buffer_first b c) ;;
  for_ptr (ptr_fuel first p_end (to_int64 p_inc)) first p_end (to_int64 p_inc)
          (tx_body cfg) i ;;
  ret tt.

(** Source lines 341-343: schedule the TX buffer. *)
Definition tx_push : M unit :=
  b <- gets txbuf ;;
  r <- iio (iio_buffer_push b) ;;
  if to_int64 r <? 0 then
    printf Stdout "Error pushing buf %d\n" [AInt (to_int32 (to_int64 r))] ;; shutdown
  else ret tt.

(** Refill and the pointers of the traversal, source lines 349-354. *)
Definition rx_refill : M (Z * Z * Z) :=
  b <- gets rxbuf ;;
  n <- gets clock ;;
  r <- iio (iio_buffer_refill b) ;;
  modify (set_mem (refilled E n)) ;;
  (if to_int64 r <? 0 then
     printf Stdout "Error refilling buf %d\n" [AInt (to_int32 (to_int64 r))] ;; shutdown
   else ret tt) ;;
  p_inc <- iio (iio_buffer_step b) ;;
  p_end <- iio (iio_buffer_end b) ;;
  c <- gets rx0_i ;;
  first <- iio (iio_buffer_first b c) ;;
  ret (first, p_end, to_int64 p_inc).

Definition count_sample : M unit :=
  modify (fun s => set_nrx (to_size (nrx s + 1)) s).

(** Source lines 347-359: throw the first refills away. *)
Definition rx_warmup_pass : M unit :=
  '(first, p_end, p_inc) <- rx_refill ;;
  for_ptr (ptr_fuel first p_end p_inc) first p_end p_inc
          (fun _ _ => count_sample) tt.

Definition rx_warmup : M unit := repeat_n 2 rx_warmup_pass.

(** The row printed for a sample, source line 380. *)
Definition magnitude (i q : Z) : dbl :=
  d_sqrt (d_of_Z (int_add (int_mul i i) (int_mul q q))).
Definition phase_deg (i q : Z) : dbl :=
  d_mul (d_div (d_of_Z 180) d_pi) (d_atan (d_div (d_of_Z q) (d_of_Z i))).

Definition rx_row (i q : Z) : list arg :=
  [AInt i; AInt q; ADbl (d_fmt4 (magnitude i q)); ADbl (d_fmt4 (phase_deg i q))].

Definition rx_body (p_dat : Z) (_ : unit) : M unit :=
  m <- gets mem ;;
  let i := load16 m p_dat in
  let q := load16 m (p_dat + 2) in
  count_sample ;;
  printf (File "output.csv") "%d, %d, %.4f, %.4f\n" (rx_row i q).

(** Source lines 365-382: capture. *)
Definition rx_capture_pass : M unit :=
  '(first, p_end, p_inc) <- rx_refill ;;
  for_ptr (ptr_fuel first p_end p_inc) first p_end p_inc rx_body tt.

Definition rx_capture : M unit := repeat_n 40 rx_capture_pass.

(** Source lines 361-362 and 384. *)
Definition report_dumped : M unit :=
  n <- gets nrx ;;
  printf Stdout "* data values dumped RX %d\n" [AInt (to_int32 n)] ;;
  modify (set_nrx 0).

Definition report_received : M unit :=
  n <- gets nrx ;;
  printf Stdout "* data values received RX %d\n" [AInt (to_int32 n)].

(** Source lines 346-384: the two receive phases. *)
Definition rx_phases : M unit :=
  rx_warmup ;;
  report_dumped ;;
  rx_capture ;;
  report_received.

(** Source lines 306-388. *)
Definition streaming : M unit :=
  printf Stdout "* Starting IO streaming\n" [] ;;
  tx_fill txcfg ;;
  tx_push ;;
  rx_phases ;;
  log (Fclose "input.csv") ;;
  log (Fclose "output.csv") ;;
  shutdown.

(** Source lines 288-388: buffers, log files, streaming. *)
Definition run_streams (rx tx : Z) : M unit :=
  create_buffers rx tx ;;
  log (Fopen "output.csv" "w+") ;;
  log (Fopen "input.csv" "w+") ;;
  streaming.

(** simple configuration and streaming *)
Definition main (argv : list string) : M Z :=
  modify (set_nrx 0) ;;
  log (Signal SIGINT "handle_sig") ;;
  acquire_context argv ;;
  printf Stdout "* Acquiring AD9361 streaming devices\n" [] ;;
  '(ok, tx) <- get_ad9361_stream_dev TX ;; IIO_ENSURE ok 269 ;;
  '(ok, rx) <- get_ad9361_stream_dev RX ;; IIO_ENSURE ok 270 ;;
  printf Stdout "* Configuring AD9361 for streaming\n" [] ;;
  ok <- cfg_ad9361_streaming_ch rxcfg RX 0 ;; IIO_ENSURE ok 273 ;;
  ok <- cfg_ad9361_streaming_ch txcfg TX 0 ;; IIO_ENSURE ok 274 ;;
  init_channels rx tx ;;
  run_streams rx tx ;;
  ret 0.

End Program.

Arguments iio : simpl never.

(** ** Reading a trace *)

Definition call_of (e : event) : list call :=
  match e with Call c => [c] | _ => [] end.

(** The library calls of a trace, in order. *)
Definition calls (t : list event) : list call := flat_map call_of t.

Definition row_of (f : string) (e : event) : list (list arg) :=
  match e with
  | Printf (File g) _ args => if String.eqb f g then [args] else []
  | _ => []
  end.

(** The rows written to the file [f], in order. *)
Definition rows (f : string) (t : list event) : list (list arg) :=
  flat_map (row_of f) t.

(** The line printed by the signal handler. *)
Definition sigmsg (sig : Z) : event :=
  Printf Stdout "Waiting for process to finish... Got signal %d\n" [AInt sig].

Definition is_sigmsg (e : event) : bool :=
  match e with
  | Printf Stdout fmt _ =>
      String.eqb fmt "Waiting for process to finish... Got signal %d\n"
  | _ => false
  end.

(** The trace without the lines of the signal handler. *)
Definition quiet (t : list event) : list event :=
  filter (fun e => negb (is_sigmsg e)) t.

(** What a run added to the trace of the state it started from. *)
Definition added {A} (s : state) (o : outcome A) : list event :=
  skipn (List.length (trace s)) (trace (final o)).

Lemma calls_app t1 t2 : calls (t1 ++ t2) = calls t1 ++ calls t2.
Proof. apply flat_map_app. Qed.

Lemma rows_app f t1 t2 : rows f (t1 ++ t2) = rows f t1 ++ rows f t2.
Proof. apply flat_map_app. Qed.

Lemma quiet_app t1 t2 : quiet (t1 ++ t2) = quiet t1 ++ quiet t2.
Proof. apply filter_app. Qed.

Lemma calls_sigmsgs l : calls (map sigmsg l) = [].
Proof. induction l; simpl; auto. Qed.

Lemma rows_sigmsgs f l : rows f (map sigmsg l) = [].
Proof. induction l; simpl; auto. Qed.

Lemma quiet_sigmsgs l : quiet (map sigmsg l) = [].
Proof. induction l; simpl; auto. Qed.

Lemma calls_nil : calls [] = [].
Proof. reflexivity. Qed.

Lemma calls_call c t : calls (Call c :: t) = c :: calls t.
Proof. reflexivity. Qed.

Lemma calls_printf to fmt args t : calls (Printf to fmt args :: t) = calls t.
Proof. reflexivity. Qed.

Lemma rows_nil f : rows f [] = [].
Proof. reflexivity. Qed.

Lemma rows_call f c t : rows f (Call c :: t) = rows f t.
Proof. reflexivity. Qed.

Lemma rows_stdout f fmt args t : rows f (Printf Stdout fmt args :: t) = rows f t.
Proof. reflexivity. Qed.

Lemma rows_stderr f fmt args t : rows f (Printf Stderr fmt args :: t) = rows f t.
Proof. reflexivity. Qed.

Lemma rows_file f fmt args t :
  rows f (Printf (File f) fmt args :: t) = args :: rows f t.
Proof. unfold rows. simpl. now rewrite String.eqb_refl. Qed.

Lemma rows_other_file f g fmt args t :
  String.eqb f g = false -> rows f (Printf (File g) fmt args :: t) = rows f t.
Proof. unfold rows. simpl. now intros ->. Qed.

Create Rewrite HintDb trace_db.
#[global] Hint Rewrite calls_app rows_app calls_sigmsgs rows_sigmsgs
  calls_nil calls_call calls_printf rows_nil rows_call rows_stdout rows_stderr
  rows_file app_nil_r : trace_db.
#[global] Hint Rewrite <- app_assoc : trace_db.

Arguments calls : simpl never.
Arguments rows : simpl never.

Lemma skipn_length_app {A} (l d : list A) : skipn (List.length l) (l ++ d) = d.
Proof. induction l; simpl; auto. Qed.

Lemma added_eq {A} (s : state) (o : outcome A) d :
  trace (final o) = trace s ++ d -> added s o = d.
Proof. unfold added. intros ->. apply skipn_length_app. Qed.

(** ** Executing the primitives *)

Section Exec.

Context {NU : Numerics}.
Variable E : env.

(** The state after the handler ran for each signal of [sigs]. *)
Definition interrupted (sigs : list Z) (s : state) : state :=
  mkState (ctx s) (rx0_i s) (rx0_q s) (tx0_i s) (tx0_q s) (rxbuf s) (txbuf s)
          (match sigs with [] => stop s | _ => true end)
          (nrx s) (mem s) (clock s) (trace s ++ map sigmsg sigs).

(** The state after one library call. *)
Definition after_call (c : call) (s : state) : state :=
  tick (emit (Call c) (interrupted (signals E (clock s)) s)).

Lemma run_handlers_eq sigs s :
  run_handlers sigs s = Ret tt (interrupted sigs s).
Proof.
  revert s. induction sigs as [| sig rest IH]; intros s.
  - unfold interrupted. simpl. rewrite app_nil_r. destruct s; reflexivity.
  - simpl. unfold bind, handle_sig, printf, log, modify, bind. simpl.
    rewrite IH. unfold interrupted. simpl.
    rewrite <- app_assoc. simpl.
    destruct rest; reflexivity.
Qed.

Lemma iio_eq c s : iio E c s = Ret (respond E (clock s) c) (after_call c s).
Proof.
  unfold iio, bind, gets. rewrite run_handlers_eq. reflexivity.
Qed.

Lemma bind_iio {B} c (k : Z -> M B) s :
  bind (iio E c) k s = k (respond E (clock s) c) (after_call c s).
Proof. unfold bind. rewrite iio_eq. reflexivity. Qed.

Lemma trace_after_call c s :
  trace (after_call c s) = trace s ++ map sigmsg (signals E (clock s)) ++ [Call c].
Proof. unfold after_call. simpl. now rewrite <- app_assoc. Qed.

Lemma calls_after_call c s :
  calls (trace (after_call c s)) = calls (trace s) ++ [c].
Proof.
  rewrite trace_after_call. autorewrite with trace_db. reflexivity.
Qed.

Lemma rows_after_call f c s :
  rows f (trace (after_call c s)) = rows f (trace s).
Proof.
  rewrite trace_after_call. autorewrite with trace_db. reflexivity.
Qed.

End Exec.

Lemma bind_bind {A B C} (m : M A) (f : A -> M B) (g : B -> M C) s :
  bind (bind m f) g s = bind m (fun a => bind (f a) g) s.
Proof. unfold bind. destruct (m s); reflexivity. Qed.

(** Symbolic execution: unfold the monad, answer library calls with
    [bind_iio]. *)
Ltac exec :=
  repeat first
    [ rewrite bind_iio
    | rewrite iio_eq
    | progress cbn [bind ret gets modify log printf stop_with iio_void if_set
                    final returns fst snd
                    ctx rx0_i rx0_q tx0_i tx0_q rxbuf txbuf stop nrx mem clock trace
                    set_ctx set_rx0_i set_rx0_q set_tx0_i set_tx0_q set_rxbuf
                    set_txbuf set_stop set_nrx set_mem tick emit after_call
                    interrupted] ].

(** ** The shutdown sequencer *)

Section Shutdown.

Context {NU : Numerics}.
Variable E : env.

(** The release call made for a handle, if it is not [NULL]. *)
Definition held (p : Z) (f : Z -> call) : list call :=
  if p =? 0 then [] else [f p].

(** The release calls owed by a state, in the order of [shutdown]. *)
Definition releases (s : state) : list call :=
  held (rxbuf s) iio_buffer_destroy ++
  held (txbuf s) iio_buffer_destroy ++
  held (rx0_i s) iio_channel_disable ++
  held (rx0_q s) iio_channel_disable ++
  held (tx0_i s) iio_channel_disable ++
  held (tx0_q s) iio_channel_disable ++
  held (ctx s) iio_context_destroy.

(** The handle a release call is applied to. *)
Definition released_handle (c : call) : Z :=
  match c with
  | iio_buffer_destroy b => b
  | iio_channel_disable ch => ch
  | iio_context_destroy x => x
  | _ => 0
  end.

(** Two states with the same globals. *)
Definition same_globals (s s' : state) : Prop :=
  ctx s' = ctx s /\ rx0_i s' = rx0_i s /\ rx0_q s' = rx0_q s /\
  tx0_i s' = tx0_i s /\ tx0_q s' = tx0_q s /\
  rxbuf s' = rxbuf s /\ txbuf s' = txbuf s.

Definition state_after_if_set (p : Z) (f : Z -> call) (s : state) : state :=
  if p =? 0 then s else after_call E (f p) s.

Lemma if_set_eq p f s : if_set E p f s = Ret tt (state_after_if_set p f s).
Proof.
  unfold if_set, state_after_if_set, iio_void.
  destruct (p =? 0); [reflexivity | now rewrite bind_iio].
Qed.

Lemma bind_if_set {B} p f (k : unit -> M B) s :
  bind (if_set E p f) k s = k tt (state_after_if_set p f s).
Proof. unfold bind. now rewrite if_set_eq. Qed.

Lemma if_set_ctx p f s : ctx (state_after_if_set p f s) = ctx s.
Proof. unfold state_after_if_set. destruct (p =? 0); reflexivity. Qed.
Lemma if_set_rx0_i p f s : rx0_i (state_after_if_set p f s) = rx0_i s.
Proof. unfold state_after_if_set. destruct (p =? 0); reflexivity. Qed.
Lemma if_set_rx0_q p f s : rx0_q (state_after_if_set p f s) = rx0_q s.
Proof. unfold state_after_if_set. destruct (p =? 0); reflexivity. Qed.
Lemma if_set_tx0_i p f s : tx0_i (state_after_if_set p f s) = tx0_i s.
Proof. unfold state_after_if_set. destruct (p =? 0); reflexivity. Qed.
Lemma if_set_tx0_q p f s : tx0_q (state_after_if_set p f s) = tx0_q s.
Proof. unfold state_after_if_set. destruct (p =? 0); reflexivity. Qed.
Lemma if_set_rxbuf p f s : rxbuf (state_after_if_set p f s) = rxbuf s.
Proof. unfold state_after_if_set. destruct (p =? 0); reflexivity. Qed.
Lemma if_set_txbuf p f s : txbuf (state_after_if_set p f s) = txbuf s.
Proof. unfold state_after_if_set. destruct (p =? 0); reflexivity. Qed.
Lemma if_set_nrx p f s : nrx (state_after_if_set p f s) = nrx s.
Proof. unfold state_after_if_set. destruct (p =? 0); reflexivity. Qed.
Lemma if_set_mem p f s : mem (state_after_if_set p f s) = mem s.
Proof. unfold state_after_if_set. destruct (p =? 0); reflexivity. Qed.

Lemma if_set_calls p f s :
  calls (trace (state_after_if_set p f s)) = calls (trace s) ++ held p f.
Proof.
  unfold state_after_if_set, held. destruct (p =? 0).
  - now rewrite app_nil_r.
  - apply calls_after_call.
Qed.

Lemma if_set_rows name p f s :
  rows name (trace (state_after_if_set p f s)) = rows name (trace s).
Proof.
  unfold state_after_if_set. destruct (p =? 0); [reflexivity |].
  apply rows_after_call.
Qed.

Lemma emit_calls_printf to fmt args s :
  calls (trace (emit (Printf to fmt args) s)) = calls (trace s).
Proof. cbn [trace emit]. autorewrite with trace_db. reflexivity. Qed.

Lemma emit_rows_stdout name fmt args s :
  rows name (trace (emit (Printf Stdout fmt args) s)) = rows name (trace s).
Proof. cbn [trace emit]. autorewrite with trace_db. reflexivity. Qed.

(** The state after [if (g) { f(g); }] for the global read by [proj]. *)
Definition release (proj : state -> Z) (f : Z -> call) (s : state) : state :=
  state_after_if_set (proj s) f s.

(** The state in which [shutdown] leaves the process. *)
Definition state_after_shutdown (s : state) : state :=
  release ctx iio_context_destroy
    (emit (Printf Stdout "* Destroying context\n" [])
       (release tx0_q iio_channel_disable
          (release tx0_i iio_channel_disable
             (release rx0_q iio_channel_disable
                (release rx0_i iio_channel_disable
                   (emit (Printf Stdout "* Disabling streaming channels\n" [])
                      (release txbuf iio_buffer_destroy
                         (release rxbuf iio_buffer_destroy
                            (emit (Printf Stdout "* Destroying buffers\n" []) s))))))))).

Lemma shutdown_eq s : shutdown E s = Halt (Exit 0) (state_after_shutdown s).
Proof.
  unfold shutdown, state_after_shutdown, release.
  repeat first [ rewrite bind_if_set
               | progress cbn [bind printf log modify gets stop_with] ].
  reflexivity.
Qed.

Lemma bind_shutdown {B} (k : unit -> M B) s :
  bind (shutdown E) k s = Halt (Exit 0) (state_after_shutdown s).
Proof. unfold bind. now rewrite shutdown_eq. Qed.

Ltac through_shutdown :=
  unfold state_after_shutdown, release;
  repeat first
    [ rewrite if_set_ctx | rewrite if_set_rx0_i | rewrite if_set_rx0_q
    | rewrite if_set_tx0_i | rewrite if_set_tx0_q | rewrite if_set_rxbuf
    | rewrite if_set_txbuf | rewrite if_set_nrx | rewrite if_set_mem
    | rewrite if_set_calls | rewrite if_set_rows | rewrite emit_calls_printf
    | rewrite emit_rows_stdout
    | progress cbn [ctx rx0_i rx0_q tx0_i tx0_q rxbuf txbuf nrx mem emit] ].

Lemma shutdown_globals s : same_globals s (state_after_shutdown s).
Proof. unfold same_globals. repeat split; through_shutdown; reflexivity. Qed.

Lemma shutdown_nrx s : nrx (state_after_shutdown s) = nrx s.
Proof. through_shutdown. reflexivity. Qed.

Lemma shutdown_calls s :
  calls (trace (state_after_shutdown s)) = calls (trace s) ++ releases s.
Proof.
  unfold releases. through_shutdown. now rewrite <- !app_assoc.
Qed.

Lemma shutdown_rows name s :
  rows name (trace (state_after_shutdown s)) = rows name (trace s).
Proof.
  through_shutdown. reflexivity.
Qed.

End Shutdown.

(** Symbolic execution up to and including a shutdown. *)
Ltac run :=
  repeat first
    [ rewrite bind_shutdown | rewrite shutdown_eq | rewrite bind_bind | exec ].

(** The release call that each of the seven globals would receive, in the
    order of the source. *)
Definition owed (s : state) : list call :=
  [ iio_buffer_destroy (rxbuf s); iio_buffer_destroy (txbuf s);
    iio_channel_disable (rx0_i s); iio_channel_disable (rx0_q s);
    iio_channel_disable (tx0_i s); iio_channel_disable (tx0_q s);
    iio_context_destroy (ctx s) ].

Lemma releases_filter (s : state) :
  releases s = filter (fun c => negb (released_handle c =? 0)) (owed s).
Proof.
  unfold releases, owed, held. cbn [filter released_handle].
  destruct (rxbuf s =? 0), (txbuf s =? 0), (rx0_i s =? 0), (rx0_q s =? 0),
    (tx0_i s =? 0), (tx0_q s =? 0), (ctx s =? 0); reflexivity.
Qed.

(** C4. Shutdown sequencer safety.  From any state (any subset of the seven
    handles acquired) [shutdown] ends the process with [exit(0)], never by
    an abort or a hang; the library calls it makes are exactly the release
    calls of the non-NULL globals in the order RX buffer, TX buffer, the four
    channels, context; each global is released at most once and no release
    call receives NULL; the globals themselves are untouched. *)
Theorem C4_shutdown_safe {NU : Numerics} (E : env) (s : state) :
  exists s',
    shutdown E s = Halt (Exit 0) s' /\
    calls (trace s') = calls (trace s) ++ releases s /\
    releases s = filter (fun c => negb (released_handle c =? 0)) (owed s) /\
    Forall (fun c => released_handle c <> 0) (releases s) /\
    same_globals s s'.
Proof.
  exists (state_after_shutdown E s).
  split; [apply shutdown_eq |].
  split; [apply shutdown_calls |].
  split; [apply releases_filter |].
  split; [| apply shutdown_globals].
  rewrite releases_filter. apply Forall_forall. intros c Hc.
  apply filter_In in Hc. destruct Hc as [_ Hc].
  apply negb_true_iff, Z.eqb_neq in Hc. exact Hc.
Qed.

(** ** Buffer traversal *)

(** The first [n] pointers of a traversal starting at [p]. *)
Fixpoint addresses (n : nat) (p step : Z) : list Z :=
  match n with
  | O => []
  | S n' => p :: addresses n' (p + step) step
  end.

(** Number of iterations of [for (p = first; p < p_end; p += step)],
    for [step >= 1]. *)
Definition elements (first p_end step : Z) : nat :=
  Z.to_nat ((p_end - first + step - 1) / step).

(** The loop body applied to a list of pointers, in order. *)
Fixpoint foldM {A} (body : Z -> A -> M A) (l : list Z) (a : A) : M A :=
  match l with
  | [] => ret a
  | p :: rest => a' <- body p a ;; foldM body rest a'
  end.

Lemma elements_done first p_end step :
  0 < step -> p_end <= first -> elements first p_end step = 0%nat.
Proof.
  intros Hs Hle. unfold elements.
  assert ((p_end - first + step - 1) / step <= 0); [| lia].
  apply Z.lt_succ_r. apply Z.div_lt_upper_bound; lia.
Qed.

Lemma elements_next first p_end step :
  0 < step -> first < p_end ->
  elements first p_end step = S (elements (first + step) p_end step).
Proof.
  intros Hs Hlt. unfold elements.
  replace (p_end - first + step - 1)
    with ((p_end - (first + step) + step - 1) + 1 * step) by lia.
  rewrite Z.div_add by lia.
  assert (0 <= (p_end - (first + step) + step - 1) / step).
  { apply Z.div_pos; lia. }
  rewrite Z2Nat.inj_add by lia. simpl. lia.
Qed.

Lemma length_addresses n p step : List.length (addresses n p step) = n.
Proof. revert p. induction n; intros; simpl; auto. Qed.



(** With a positive step the loop is the fold of its body over the
    pointers [first + j * step] below [p_end]; in particular it ends. *)
Lemma for_ptr_foldM {A} (body : Z -> A -> M A) p_end step :
  0 < step ->
  forall fuel first a s,
    (Z.to_nat (p_end - first) <= fuel)%nat ->
    for_ptr fuel first p_end step body a s =
    foldM body (addresses (elements first p_end step) first step) a s.
Proof.
  intros Hs. induction fuel as [| fuel IH]; intros first a s Hf.
  - assert (p_end <= first) by lia.
    rewrite elements_done by lia. simpl.
    destruct (Z.ltb_spec first p_end); [lia | reflexivity].
  - cbn [for_ptr]. destruct (Z.ltb_spec first p_end) as [Hlt | Hge].
    + rewrite elements_next by lia. cbn [addresses foldM]. unfold bind.
      destruct (body first a s) as [a' s' | h s']; [| reflexivity].
      apply IH. lia.
    + rewrite elements_done by lia. reflexivity.
Qed.

Lemma for_ptr_traverse {A} (body : Z -> A -> M A) first p_end step a s :
  0 < step ->
  for_ptr (ptr_fuel first p_end step) first p_end step body a s =
  foldM body (addresses (elements first p_end step) first step) a s.
Proof.
  intros Hs. apply for_ptr_foldM; [exact Hs |].
  unfold ptr_fuel. destruct (Z.ltb_spec 0 step); lia.
Qed.

(** With a step that is not positive, a loop that is entered never ends. *)
Lemma for_ptr_spin {A} (body : Z -> A -> M A) first p_end step a s :
  step <= 0 -> first < p_end ->
  for_ptr (ptr_fuel first p_end step) first p_end step body a s = Halt Spin s.
Proof.
  intros Hs Hlt. unfold ptr_fuel.
  destruct (Z.ltb_spec 0 step); [lia |]. cbn [for_ptr].
  destruct (Z.ltb_spec first p_end); [reflexivity | lia].
Qed.

(** *** Byte memory *)

Lemma load16_bytes m a v :
  m a = v mod 256 -> m (a + 1) = (v / 256) mod 256 -> load16 m a = to_int16 v.
Proof.
  intros H0 H1. unfold load16. rewrite H0, H1.
  rewrite !Z.mod_mod by lia.
  unfold to_int16, wrap_signed.
  change (2 ^ (16 - 1)) with 32768. change (2 ^ 16) with 65536.
  f_equal.
  rewrite <- (Z.add_mod_idemp_l v) by lia. f_equal. f_equal.
  change 65536 with (256 * 256). rewrite Z.rem_mul_r by lia. reflexivity.
Qed.

Lemma load_store_same m a v : load16 (store16 m a v) a = to_int16 v.
Proof.
  apply load16_bytes; unfold store16.
  - now rewrite Z.eqb_refl.
  - destruct (Z.eqb_spec (a + 1) a); [lia |]. now rewrite Z.eqb_refl.
Qed.

Lemma load_store_other m a b v :
  b + 1 < a \/ a + 1 < b -> load16 (store16 m a v) b = load16 m b.
Proof.
  intros H. unfold load16, store16.
  destruct (Z.eqb_spec b a); [lia |].
  destruct (Z.eqb_spec b (a + 1)); [lia |].
  destruct (Z.eqb_spec (b + 1) a); [lia |].
  destruct (Z.eqb_spec (b + 1) (a + 1)); [lia |].
  reflexivity.
Qed.

Lemma to_int16_idem x : to_int16 (to_int16 x) = to_int16 x.
Proof. apply to_int16_id, to_int16_range. Qed.

(** ** The receive passes *)

Definition out_csv : string := "output.csv".
Definition in_csv : string := "input.csv".

Section Receive.

Context {NU : Numerics}.
Variable E : env.

(** The traversal pointers [(first, p_end, p_inc)] that the library reports
    to the calls number [n] (step), [n+1] (end) and [n+2] (first). *)
Definition view (b c : Z) (n : nat) : Z * Z * Z :=
  (respond E (S (S n)) (iio_buffer_first b c),
   respond E (S n) (iio_buffer_end b),
   to_int64 (respond E n (iio_buffer_step b))).

Definition view_step (b c : Z) (n : nat) : Z := snd (view b c n).

Definition view_pointers (b c : Z) (n : nat) : list Z :=
  let '(first, p_end, p_inc) := view b c n in
  addresses (elements first p_end p_inc) first p_inc.

(** The row printed for the sample at [p]. *)
Definition sample_row (m : Z -> Z) (p : Z) : list arg :=
  rx_row (load16 m p) (load16 m (p + 2)).

(** A receive pass that starts with library call number [n]: its refill
    succeeds and the reported step is positive. *)
Definition pass_ok (b c : Z) (n : nat) : Prop :=
  0 <= to_int64 (respond E n (iio_buffer_refill b)) /\ 0 < view_step b c (S n).

Definition pass_calls (b c : Z) : list call :=
  [iio_buffer_refill b; iio_buffer_step b; iio_buffer_end b; iio_buffer_first b c].

Definition pass_rows (b c : Z) (n : nat) : list (list arg) :=
  map (sample_row (refilled E n)) (view_pointers b c (S n)).

(** What a loop body leaves alone. *)
Definition untouched (s s' : state) : Prop :=
  same_globals s s' /\ mem s' = mem s /\ clock s' = clock s /\
  calls (trace s') = calls (trace s).

Lemma untouched_refl s : untouched s s.
Proof. unfold untouched, same_globals. repeat split; reflexivity. Qed.

Lemma untouched_trans s1 s2 s3 : untouched s1 s2 -> untouched s2 s3 -> untouched s1 s3.
Proof.
  unfold untouched, same_globals.
  intros (G1 & M1 & K1 & C1) (G2 & M2 & K2 & C2).
  repeat match goal with H : _ /\ _ |- _ => destruct H end.
  repeat split; congruence.
Qed.

Lemma to_size_succ x y :
  to_size x = to_size y -> to_size (to_size (x + 1)) = to_size (y + 1).
Proof.
  unfold to_size. intros H. rewrite Z.mod_mod by lia.
  rewrite <- (Z.add_mod_idemp_l x), <- (Z.add_mod_idemp_l y) by lia.
  now rewrite H.
Qed.

Lemma foldM_count l :
  forall s, exists s',
    foldM (fun _ _ => count_sample) l tt s = Ret tt s' /\
    untouched s s' /\
    trace s' = trace s /\
    to_size (nrx s') = to_size (nrx s + Z.of_nat (List.length l)).
Proof.
  induction l as [| p l IH]; intros s.
  - exists s. cbn. rewrite Z.add_0_r. auto using untouched_refl.
  - cbn [foldM]. unfold count_sample at 1. cbn [bind modify].
    destruct (IH (set_nrx (to_size (nrx s + 1)) s)) as (s' & Hrun & Hu & Ht & Hn).
    exists s'. rewrite Hrun. split; [reflexivity |].
    split; [| split].
    + eapply untouched_trans; [| exact Hu].
      unfold untouched, same_globals. cbn. repeat split; reflexivity.
    + rewrite Ht. reflexivity.
    + rewrite Hn. cbn [nrx set_nrx].
      unfold to_size. rewrite Zplus_mod_idemp_l. f_equal.
      cbn [List.length]. lia.
Qed.

Lemma foldM_rx_body l :
  forall s, exists s',
    foldM rx_body l tt s = Ret tt s' /\
    untouched s s' /\
    rows out_csv (trace s') = rows out_csv (trace s) ++ map (sample_row (mem s)) l /\
    rows in_csv (trace s') = rows in_csv (trace s) /\
    to_size (nrx s') = to_size (nrx s + Z.of_nat (List.length l)).
Proof.
  induction l as [| p l IH]; intros s.
  - exists s. cbn. rewrite Z.add_0_r, app_nil_r. auto using untouched_refl.
  - cbn [foldM]. unfold rx_body at 1, count_sample. cbn [bind modify gets printf log].
    match goal with |- context [foldM rx_body l tt ?t] =>
      destruct (IH t) as (s' & Hrun & Hu & Ho & Hi & Hn) end.
    exists s'. rewrite Hrun. split; [reflexivity |].
    split; [| split; [| split]].
    + eapply untouched_trans; [| exact Hu].
      unfold untouched, same_globals. cbn. autorewrite with trace_db.
      repeat split; reflexivity.
    + rewrite Ho. cbn [trace emit set_nrx mem]. unfold out_csv.
      autorewrite with trace_db. reflexivity.
    + rewrite Hi. cbn [trace emit set_nrx]. unfold in_csv.
      rewrite rows_app, rows_other_file by reflexivity.
      autorewrite with trace_db. reflexivity.
    + rewrite Hn. cbn [nrx set_nrx emit].
      unfold to_size. rewrite Zplus_mod_idemp_l. f_equal.
      cbn [List.length]. lia.
Qed.

(** What one pass guarantees about the state it ends in. *)
Definition pass_post (new_rows : list (list arg)) (len : nat) (s s' : state) : Prop :=
  same_globals s s' /\
  clock s' = (clock s + 4)%nat /\
  calls (trace s') = calls (trace s) ++ pass_calls (rxbuf s) (rx0_i s) /\
  rows out_csv (trace s') = rows out_csv (trace s) ++ new_rows /\
  rows in_csv (trace s') = rows in_csv (trace s) /\
  to_size (nrx s') = to_size (nrx s + Z.of_nat len).

Lemma rx_refill_ok s :
  0 <= to_int64 (respond E (clock s) (iio_buffer_refill (rxbuf s))) ->
  exists s',
    rx_refill E s = Ret (view (rxbuf s) (rx0_i s) (S (clock s))) s' /\
    pass_post [] 0 s s' /\ mem s' = refilled E (clock s) /\ nrx s' = nrx s.
Proof.
  intros Hr. unfold rx_refill. exec.
  destruct (Z.ltb_spec (to_int64 (respond E (clock s) (iio_buffer_refill (rxbuf s)))) 0);
    [lia |].
  exec. eexists. split; [reflexivity |].
  unfold pass_post, same_globals, pass_calls. exec.
  autorewrite with trace_db. rewrite Z.add_0_r. cbn [app].
  repeat split; try reflexivity. lia.
Qed.

Lemma rx_capture_pass_ok s :
  pass_ok (rxbuf s) (rx0_i s) (clock s) ->
  exists s',
    rx_capture_pass E s = Ret tt s' /\
    pass_post (pass_rows (rxbuf s) (rx0_i s) (clock s))
              (List.length (view_pointers (rxbuf s) (rx0_i s) (S (clock s)))) s s'.
Proof.
  intros [Hr Hs]. unfold rx_capture_pass, bind at 1.
  destruct (rx_refill_ok s Hr) as (s1 & -> & P1 & M1 & N1).
  unfold view_step in Hs. unfold pass_rows, view_pointers.
  destruct (view (rxbuf s) (rx0_i s) (S (clock s))) as [[first p_end] p_inc].
  cbn [snd] in Hs. rewrite for_ptr_traverse by exact Hs.
  destruct (foldM_rx_body (addresses (elements first p_end p_inc) first p_inc) s1)
    as (s2 & -> & (G & M2 & K & C) & Ho & Hi & Hn).
  exists s2. split; [reflexivity |].
  destruct P1 as (G1 & K1 & C1 & O1 & I1 & _).
  unfold pass_post, same_globals in *.
  repeat match goal with H : _ /\ _ |- _ => destruct H end.
  rewrite app_nil_r in O1.
  repeat split; try congruence.
Qed.

Lemma rx_warmup_pass_ok s :
  pass_ok (rxbuf s) (rx0_i s) (clock s) ->
  exists s',
    rx_warmup_pass E s = Ret tt s' /\
    pass_post [] (List.length (view_pointers (rxbuf s) (rx0_i s) (S (clock s)))) s s'.
Proof.
  intros [Hr Hs]. unfold rx_warmup_pass, bind at 1.
  destruct (rx_refill_ok s Hr) as (s1 & -> & P1 & M1 & N1).
  unfold view_step in Hs. unfold view_pointers.
  destruct (view (rxbuf s) (rx0_i s) (S (clock s))) as [[first p_end] p_inc].
  cbn [snd] in Hs. rewrite for_ptr_traverse by exact Hs.
  destruct (foldM_count (addresses (elements first p_end p_inc) first p_inc) s1)
    as (s2 & -> & (G & M2 & K & C) & Ht & Hn).
  exists s2. split; [reflexivity |].
  destruct P1 as (G1 & K1 & C1 & O1 & I1 & _).
  unfold pass_post, same_globals in *.
  repeat match goal with H : _ /\ _ |- _ => destruct H end.
  rewrite Ht. repeat split; try congruence.
Qed.

(** The library call numbers at which [n] consecutive passes start. *)
Fixpoint pass_starts (c0 : nat) (n : nat) : list nat :=
  match n with
  | O => []
  | S n' => c0 :: pass_starts (c0 + 4) n'
  end.

Definition pass_length (b c : Z) (n : nat) : nat :=
  List.length (view_pointers b c (S n)).

(** Samples traversed by the passes that start at the call numbers [l]. *)
Definition samples_of (b c : Z) (l : list nat) : nat :=
  list_sum (map (pass_length b c) l).

Definition passes_ok (b c : Z) (l : list nat) : Prop :=
  Forall (pass_ok b c) l.

(** [n] passes in a row. *)
Lemma repeat_passes (pass : M unit) (new_rows : Z -> Z -> nat -> list (list arg)) :
  (forall s, pass_ok (rxbuf s) (rx0_i s) (clock s) ->
     exists s', pass s = Ret tt s' /\
       pass_post (new_rows (rxbuf s) (rx0_i s) (clock s))
                 (pass_length (rxbuf s) (rx0_i s) (clock s)) s s') ->
  forall n s,
    passes_ok (rxbuf s) (rx0_i s) (pass_starts (clock s) n) ->
    exists s',
      repeat_n n pass s = Ret tt s' /\
      same_globals s s' /\
      clock s' = (clock s + 4 * n)%nat /\
      calls (trace s') =
        calls (trace s) ++ List.concat (repeat (pass_calls (rxbuf s) (rx0_i s)) n) /\
      rows out_csv (trace s') =
        rows out_csv (trace s) ++
        flat_map (new_rows (rxbuf s) (rx0_i s)) (pass_starts (clock s) n) /\
      rows in_csv (trace s') = rows in_csv (trace s) /\
      to_size (nrx s') =
        to_size (nrx s + Z.of_nat (samples_of (rxbuf s) (rx0_i s) (pass_starts (clock s) n))).
Proof.
  intros Hpass. induction n as [| n IH]; intros s Hok.
  - exists s. cbn. unfold same_globals, samples_of. cbn.
    rewrite Z.add_0_r, Nat.add_0_r, !app_nil_r. repeat split; reflexivity.
  - cbn [pass_starts] in Hok. inversion Hok as [| ? ? H1 Hrest]; subst.
    destruct (Hpass s H1) as (s1 & Hrun & G & K & C & O & I & N).
    assert (Eb : rxbuf s1 = rxbuf s) by (unfold same_globals in G; tauto).
    assert (Ec : rx0_i s1 = rx0_i s) by (unfold same_globals in G; tauto).
    destruct (IH s1) as (s2 & Hrun2 & G2 & K2 & C2 & O2 & I2 & N2).
    { rewrite Eb, Ec, K. exact Hrest. }
    exists s2. cbn [repeat_n]. unfold bind. rewrite Hrun, Hrun2.
    rewrite Eb, Ec, K in *.
    split; [reflexivity |].
    split.
    { unfold same_globals in *.
      repeat match goal with H : _ /\ _ |- _ => destruct H end.
      repeat split; congruence. }
    split; [lia |].
    split.
    { rewrite C2, C. cbn [repeat List.concat]. now rewrite <- app_assoc. }
    split.
    { rewrite O2, O. cbn [pass_starts flat_map]. now rewrite <- app_assoc. }
    split; [congruence |].
    rewrite N2. unfold samples_of. cbn [pass_starts map list_sum fold_right].
    rewrite Nat2Z.inj_add. unfold to_size in N |- *.
    rewrite <- Zplus_mod_idemp_l, N, Zplus_mod_idemp_l.
    unfold list_sum. f_equal. lia.
Qed.

Lemma rx_warmup_ok s :
  passes_ok (rxbuf s) (rx0_i s) (pass_starts (clock s) 2) ->
  exists s',
    rx_warmup E s = Ret tt s' /\
    same_globals s s' /\
    clock s' = (clock s + 8)%nat /\
    calls (trace s') =
      calls (trace s) ++ List.concat (repeat (pass_calls (rxbuf s) (rx0_i s)) 2) /\
    rows out_csv (trace s') = rows out_csv (trace s) /\
    rows in_csv (trace s') = rows in_csv (trace s) /\
    to_size (nrx s') =
      to_size (nrx s + Z.of_nat (samples_of (rxbuf s) (rx0_i s) (pass_starts (clock s) 2))).
Proof.
  intros Hok.
  destruct (repeat_passes (rx_warmup_pass E) (fun _ _ _ => []) rx_warmup_pass_ok 2 s Hok)
    as (s' & Hrun & G & K & C & O & I & N).
  exists s'. unfold rx_warmup. rewrite Hrun.
  cbn [pass_starts flat_map app] in O. rewrite app_nil_r in O.
  exact (conj eq_refl (conj G (conj K (conj C (conj O (conj I N)))))).
Qed.

Lemma rx_capture_ok s :
  passes_ok (rxbuf s) (rx0_i s) (pass_starts (clock s) 40) ->
  exists s',
    rx_capture E s = Ret tt s' /\
    same_globals s s' /\
    clock s' = (clock s + 160)%nat /\
    calls (trace s') =
      calls (trace s) ++ List.concat (repeat (pass_calls (rxbuf s) (rx0_i s)) 40) /\
    rows out_csv (trace s') =
      rows out_csv (trace s) ++
      flat_map (pass_rows (rxbuf s) (rx0_i s)) (pass_starts (clock s) 40) /\
    rows in_csv (trace s') = rows in_csv (trace s) /\
    to_size (nrx s') =
      to_size (nrx s + Z.of_nat (samples_of (rxbuf s) (rx0_i s) (pass_starts (clock s) 40))).
Proof.
  intros Hok.
  exact (repeat_passes (rx_capture_pass E) pass_rows rx_capture_pass_ok 40 s Hok).
Qed.

Lemma length_pass_rows b c n : List.length (pass_rows b c n) = pass_length b c n.
Proof. unfold pass_rows, pass_length. apply length_map. Qed.

Lemma length_flat_map_rows b c l :
  List.length (flat_map (pass_rows b c) l) = samples_of b c l.
Proof.
  unfold samples_of. induction l as [| n l IH]; [reflexivity |].
  cbn [flat_map map list_sum fold_right]. rewrite length_app, length_pass_rows, IH.
  reflexivity.
Qed.

End Receive.

(** ** The two receive phases together *)

(** Number of refill calls in a list of library calls. *)
Definition refills (l : list call) : nat :=
  List.length (filter (fun c => match c with iio_buffer_refill _ => true | _ => false end) l).

Definition dumped_line (n : Z) : event :=
  Printf Stdout "* data values dumped RX %d\n" [AInt (to_int32 n)].

Definition received_line (n : Z) : event :=
  Printf Stdout "* data values received RX %d\n" [AInt (to_int32 n)].

(** The state after the report that follows the warm-up phase, and after the
    report that follows the capture phase. *)
Definition after_dumped (s : state) : state :=
  set_nrx 0 (emit (dumped_line (nrx s)) s).

Definition after_received (s : state) : state :=
  emit (received_line (nrx s)) s.

Lemma report_dumped_eq s : report_dumped s = Ret tt (after_dumped s).
Proof. reflexivity. Qed.

Lemma report_received_eq s : report_received s = Ret tt (after_received s).
Proof. reflexivity. Qed.

Lemma pass_starts_app c0 n m :
  pass_starts c0 (n + m) = pass_starts c0 n ++ pass_starts (c0 + 4 * n) m.
Proof.
  revert c0. induction n as [| n IH]; intros c0.
  - cbn. now rewrite Nat.add_0_r.
  - cbn [Nat.add pass_starts app]. rewrite IH. do 3 f_equal. lia.
Qed.

Lemma length_pass_starts c0 n : List.length (pass_starts c0 n) = n.
Proof. revert c0. induction n; intros; cbn; auto. Qed.

Lemma refills_passes b c n :
  refills (List.concat (repeat (pass_calls b c) n)) = n.
Proof.
  induction n as [| n IH]; [reflexivity |].
  cbn [repeat List.concat]. unfold refills in *.
  rewrite filter_app, length_app, IH. reflexivity.
Qed.

Lemma samples_of_uniform {NU : Numerics} (E : env) b c l n :
  (forall m, pass_length E b c m = n) ->
  samples_of E b c l = (List.length l * n)%nat.
Proof.
  intros H. unfold samples_of. induction l as [| m l IH]; [reflexivity |].
  cbn [map list_sum fold_right List.length]. unfold list_sum in IH.
  rewrite IH, H. lia.
Qed.

Section Phases.

Context {NU : Numerics}.
Variable E : env.

(** The receive phases run to their end when none of the 42 refills fails
    and every reported step is positive. *)
Lemma rx_phases_ok s :
  passes_ok E (rxbuf s) (rx0_i s) (pass_starts (clock s) 42) ->
  exists s1 s3,
    rx_warmup E s = Ret tt s1 /\
    rx_capture E (after_dumped s1) = Ret tt s3 /\
    rx_phases E s = Ret tt (after_received s3) /\
    same_globals s s1 /\ same_globals s s3 /\
    clock s1 = (clock s + 8)%nat /\
    calls (trace s1) =
      calls (trace s) ++ List.concat (repeat (pass_calls (rxbuf s) (rx0_i s)) 2) /\
    rows out_csv (trace s1) = rows out_csv (trace s) /\
    rows in_csv (trace s1) = rows in_csv (trace s) /\
    to_size (nrx s1) =
      to_size (nrx s +
               Z.of_nat (samples_of E (rxbuf s) (rx0_i s) (pass_starts (clock s) 2))) /\
    calls (trace s3) =
      calls (trace s1) ++ List.concat (repeat (pass_calls (rxbuf s) (rx0_i s)) 40) /\
    rows out_csv (trace s3) =
      rows out_csv (trace s1) ++
      flat_map (pass_rows E (rxbuf s) (rx0_i s)) (pass_starts (clock s + 8) 40) /\
    rows in_csv (trace s3) = rows in_csv (trace s) /\
    to_size (nrx s3) =
      to_size (Z.of_nat (samples_of E (rxbuf s) (rx0_i s)
                                    (pass_starts (clock s + 8) 40))).
Proof.
  intros Hok.
  change 42%nat with (2 + 40)%nat in Hok. rewrite pass_starts_app in Hok.
  apply Forall_app in Hok. destruct Hok as [Hw Hc].
  destruct (rx_warmup_ok E s Hw) as (s1 & R1 & G1 & K1 & C1 & O1 & I1 & N1).
  assert (Eb : rxbuf s1 = rxbuf s) by (unfold same_globals in G1; tauto).
  assert (Ec : rx0_i s1 = rx0_i s) by (unfold same_globals in G1; tauto).
  destruct (rx_capture_ok E (after_dumped s1)) as (s3 & R3 & G3 & K3 & C3 & O3 & I3 & N3).
  { cbn [after_dumped rxbuf rx0_i clock set_nrx emit]. rewrite Eb, Ec, K1. exact Hc. }
  cbn [after_dumped rxbuf rx0_i clock set_nrx emit nrx trace] in G3, K3, C3, O3, I3, N3.
  unfold dumped_line in C3, O3, I3.
  autorewrite with trace_db in C3, O3, I3.
  rewrite Eb, Ec in *. rewrite K1 in *.
  exists s1, s3.
  split; [exact R1 |]. split; [exact R3 |].
  split.
  { unfold rx_phases, bind. rewrite R1, report_dumped_eq, R3. apply report_received_eq. }
  split; [exact G1 |].
  split.
  { unfold same_globals in *. cbn in G3.
    repeat match goal with H : _ /\ _ |- _ => destruct H end.
    repeat split; congruence. }
  split; [exact K1 |]. split; [exact C1 |]. split; [exact O1 |].
  split; [exact I1 |]. split; [exact N1 |]. split; [exact C3 |].
  split; [exact O3 |]. split; [congruence |]. exact N3.
Qed.

End Phases.

(** ** The transmit fill *)

Section Transmit.

Context {NU : Numerics}.
Variable E : env.
Variable cfg : stream_cfg.

(** The time increment [1. / txcfg.fs_hz]. *)
Definition tone_dt : dbl := d_div (d_of_Z 1) (d_of_Z (fs_hz cfg)).

Definition tone_next (i : dbl) : dbl := d_add i tone_dt.

(** The value of the local [i] in iteration [k]. *)
Definition tone_time (k : nat) : dbl := Nat.iter k tone_next tone_dt.

Definition tx_row (i : dbl) : list arg :=
  [AInt (fst (tx_sample i)); AInt (snd (tx_sample i))].

(** The rows of [n] iterations that start at time [i]. *)
Fixpoint tone_rows (n : nat) (i : dbl) : list (list arg) :=
  match n with
  | O => []
  | S n' => tx_row i :: tone_rows n' (tone_next i)
  end.

Lemma tx_sample_int16 i :
  to_int16 (fst (tx_sample i)) = fst (tx_sample i) /\
  to_int16 (snd (tx_sample i)) = snd (tx_sample i).
Proof. unfold tx_sample. cbn [fst snd]. split; apply to_int16_idem. Qed.

Lemma load16_ext m m' a :
  m' a = m a -> m' (a + 1) = m (a + 1) -> load16 m' a = load16 m a.
Proof. unfold load16. now intros -> ->. Qed.

Lemma store16_below m a v x : x < a -> store16 m a v x = m x.
Proof.
  intros H. unfold store16.
  destruct (Z.eqb_spec x a); [lia |].
  destruct (Z.eqb_spec x (a + 1)); [lia |]. reflexivity.
Qed.

(** The memory after one iteration at [p]. *)
Definition mem_after_tx_body (m : Z -> Z) (p : Z) (i : dbl) : Z -> Z :=
  store16 (store16 m p (fst (tx_sample i))) (p + 2) (snd (tx_sample i)).

Lemma tx_body_eq p i s :
  tx_body cfg p i s =
  Ret (tone_next i)
      (emit (Printf (File in_csv) "%d, %d\n" (tx_row i))
            (set_mem (mem_after_tx_body (mem s) p i) s)).
Proof.
  unfold tx_body. cbn [bind modify gets printf log ret mem set_mem].
  unfold tx_row, mem_after_tx_body.
  destruct (tx_sample_int16 i) as [HI HQ].
  rewrite load_store_same, HQ.
  rewrite load_store_other by lia. rewrite load_store_same, HI.
  reflexivity.
Qed.

Lemma load_after_tx_body m p i :
  load16 (mem_after_tx_body m p i) p = fst (tx_sample i) /\
  load16 (mem_after_tx_body m p i) (p + 2) = snd (tx_sample i).
Proof.
  unfold mem_after_tx_body. destruct (tx_sample_int16 i) as [HI HQ]. split.
  - rewrite load_store_other by lia. now rewrite load_store_same.
  - now rewrite load_store_same.
Qed.

Lemma foldM_tx_body step n :
  0 < step ->
  forall p i s, exists s',
    foldM (tx_body cfg) (addresses n p step) i s = Ret (Nat.iter n tone_next i) s' /\
    same_globals s s' /\ clock s' = clock s /\ nrx s' = nrx s /\
    calls (trace s') = calls (trace s) /\
    rows out_csv (trace s') = rows out_csv (trace s) /\
    rows in_csv (trace s') = rows in_csv (trace s) ++ tone_rows n i /\
    (forall a, a < p -> mem s' a = mem s a) /\
    (4 <= step -> forall k, (k < n)%nat ->
       load16 (mem s') (p + Z.of_nat k * step) = fst (tx_sample (Nat.iter k tone_next i)) /\
       load16 (mem s') (p + Z.of_nat k * step + 2) = snd (tx_sample (Nat.iter k tone_next i))).
Proof.
  intros Hs. induction n as [| n IH]; intros p i s.
  - exists s. cbn. unfold same_globals. rewrite app_nil_r.
    repeat split; try reflexivity; lia.
  - cbn [addresses foldM]. unfold bind. rewrite tx_body_eq.
    match goal with |- context [foldM _ _ _ ?t] =>
      destruct (IH (p + step) (tone_next i) t)
        as (s' & Hrun & G & K & N & C & O & I & Mlow & Mhigh) end.
    exists s'. rewrite Hrun. rewrite <- Nat.iter_succ_r.
    split; [reflexivity |].
    cbn [emit set_mem trace mem clock nrx] in *.
    unfold in_csv, out_csv in *.
    split; [exact G |]. split; [exact K |]. split; [exact N |].
    split. { rewrite C. autorewrite with trace_db. reflexivity. }
    split. { rewrite O. rewrite rows_app, rows_other_file by reflexivity.
             autorewrite with trace_db. reflexivity. }
    split. { rewrite I. autorewrite with trace_db. reflexivity. }
    split.
    { intros a Ha. rewrite Mlow by lia. unfold mem_after_tx_body.
      rewrite !store16_below by lia. reflexivity. }
    intros H4 k Hk. destruct k as [| k].
    + change (Nat.iter 0 tone_next i) with i.
      cbn [Z.of_nat Z.mul]. rewrite Z.add_0_r.
      destruct (load_after_tx_body (mem s) p i) as [LI LQ].
      rewrite <- LI, <- LQ.
      split; apply load16_ext; apply Mlow; lia.
    + destruct (Mhigh H4 k ltac:(lia)) as [HI HQ].
      rewrite Nat.iter_succ_r.
      replace (p + Z.of_nat (S k) * step) with (p + step + Z.of_nat k * step) by lia.
      split; assumption.
Qed.

(** The three library calls that open the fill loop. *)
Definition fill_calls (b c : Z) : list call :=
  [iio_buffer_step b; iio_buffer_end b; iio_buffer_first b c].

(** Number of elements the library exposes to a traversal whose first
    library call has number [n]. *)
Definition view_length (b c : Z) (n : nat) : nat :=
  List.length (view_pointers E b c n).

Definition view_first (b c : Z) (n : nat) : Z := fst (fst (view E b c n)).

Lemma length_view_pointers b c n :
  view_length b c n =
  elements (view_first b c n) (snd (fst (view E b c n))) (view_step E b c n).
Proof.
  unfold view_length, view_pointers, view_first, view_step.
  destruct (view E b c n) as [[f e] st]. cbn. apply length_addresses.
Qed.

(** The fill loop runs to its end when the reported step is positive: one
    row per element, and with a step of at least four bytes the buffer
    holds every pair that was written. *)
Lemma tx_fill_ok s :
  0 < view_step E (txbuf s) (tx0_i s) (clock s) ->
  exists s',
    tx_fill E cfg s = Ret tt s' /\
    same_globals s s' /\ clock s' = (clock s + 3)%nat /\ nrx s' = nrx s /\
    calls (trace s') = calls (trace s) ++ fill_calls (txbuf s) (tx0_i s) /\
    rows out_csv (trace s') = rows out_csv (trace s) /\
    rows in_csv (trace s') =
      rows in_csv (trace s) ++
      tone_rows (view_length (txbuf s) (tx0_i s) (clock s)) tone_dt /\
    (4 <= view_step E (txbuf s) (tx0_i s) (clock s) ->
     forall k, (k < view_length (txbuf s) (tx0_i s) (clock s))%nat ->
       let p := view_first (txbuf s) (tx0_i s) (clock s)
                + Z.of_nat k * view_step E (txbuf s) (tx0_i s) (clock s) in
       load16 (mem s') p = fst (tx_sample (tone_time k)) /\
       load16 (mem s') (p + 2) = snd (tx_sample (tone_time k))).
Proof.
  intros Hs. unfold tx_fill. exec.
  unfold view_length, view_pointers, view_first, view_step, view in *.
  cbn [fst snd] in *.
  set (st := to_int64 (respond E (clock s) (iio_buffer_step (txbuf s)))) in *.
  set (e := respond E (S (clock s)) (iio_buffer_end (txbuf s))) in *.
  set (f := respond E (S (S (clock s))) (iio_buffer_first (txbuf s) (tx0_i s))) in *.
  unfold bind. rewrite for_ptr_traverse by exact Hs.
  match goal with |- context [foldM _ _ _ ?t] =>
    destruct (foldM_tx_body st (elements f e st) Hs f tone_dt t)
      as (s' & Hrun & G & K & N & C & O & I & Mlow & Mhigh) end.
  unfold tone_dt in Hrun. rewrite Hrun.
  exists s'. split; [reflexivity |].
  unfold same_globals in *.
  cbn [after_call interrupted emit set_mem trace mem clock nrx tick
       ctx rx0_i rx0_q tx0_i tx0_q rxbuf txbuf] in *.
  autorewrite with trace_db in C, O, I. cbn [app] in C.
  rewrite length_addresses.
  split; [exact G |]. split; [lia |]. split; [exact N |].
  split; [exact C |]. split; [exact O |]. split; [exact I |].
  exact Mhigh.
Qed.


Lemma length_tone_rows n i : List.length (tone_rows n i) = n.
Proof. revert i. induction n; intros; cbn; auto. Qed.

End Transmit.

(** ** The tone in exact arithmetic *)

Section IdealTone.

Local Open Scope R_scope.















End IdealTone.

(** ** A well-behaved device, for concrete runs

    Every call succeeds; a buffer created for [count] samples lies at
    address [65536 * count] and exposes [count] elements of four bytes. *)

Definition nominal_respond (n : nat) (c : call) : Z :=
  match c with
  | iio_create_default_context => 1
  | iio_create_context_from_uri _ => 1
  | iio_context_get_devices_count _ => 3
  | iio_context_find_device _ _ => 16 + Z.of_nat n
  | iio_device_find_channel _ _ _ => 16 + Z.of_nat n
  | iio_device_create_buffer _ count _ => 65536 * count
  | iio_buffer_step _ => 4
  | iio_buffer_first b _ => b
  | iio_buffer_end b => b + 4 * (b / 65536)
  | _ => 0
  end.

Definition nominal : env := {|
  respond := nominal_respond;
  read_longlong := fun _ => 50;
  read_string := fun _ => "manual"%string;
  refilled := fun n a => (Z.of_nat n + a) mod 256;
  signals := fun _ => []
|}.

(** A state in which the context, the four channels and both buffers are
    held, as [main] leaves them before streaming on the nominal device. *)
Definition ready : state :=
  mkState 1 21 22 23 24 (65536 * 256) (65536 * 1024) false 0 (fun _ => 0) 40%nat [].

Lemma nth_skipn_app {A} (a b : list A) k d :
  nth k (skipn (List.length a) (a ++ b)) d = nth k b d.
Proof. now rewrite skipn_length_app. Qed.

(** The rows that a run appended to a file. *)
Definition new_rows (f : string) (s s' : state) : list (list arg) :=
  skipn (List.length (rows f (trace s))) (rows f (trace s')).

Lemma new_rows_eq f s s' l :
  rows f (trace s') = rows f (trace s) ++ l -> new_rows f s s' = l.
Proof. unfold new_rows. intros ->. apply skipn_length_app. Qed.

(** ** C1: the transmit buffer fill *)





(** ** Streaming as a whole *)

Lemma releases_same_globals (s s' : state) :
  same_globals s s' -> releases s' = releases s.
Proof.
  unfold same_globals, releases.
  intros (H1 & H2 & H3 & H4 & H5 & H6 & H7).
  now rewrite H1, H2, H3, H4, H5, H6, H7.
Qed.

Lemma same_globals_trans (s1 s2 s3 : state) :
  same_globals s1 s2 -> same_globals s2 s3 -> same_globals s1 s3.
Proof.
  unfold same_globals. intros.
  repeat match goal with H : _ /\ _ |- _ => destruct H end.
  repeat split; congruence.
Qed.

Lemma calls_fopen name mode t : calls (Fopen name mode :: t) = calls t.
Proof. reflexivity. Qed.
Lemma calls_fclose name t : calls (Fclose name :: t) = calls t.
Proof. reflexivity. Qed.
Lemma calls_perror m t : calls (Perror m :: t) = calls t.
Proof. reflexivity. Qed.
Lemma rows_fopen f name mode t : rows f (Fopen name mode :: t) = rows f t.
Proof. reflexivity. Qed.
Lemma rows_fclose f name t : rows f (Fclose name :: t) = rows f t.
Proof. reflexivity. Qed.
Lemma rows_perror f m t : rows f (Perror m :: t) = rows f t.
Proof. reflexivity. Qed.
#[global] Hint Rewrite calls_fopen calls_fclose calls_perror
  rows_fopen rows_fclose rows_perror : trace_db.

Section Streaming.

Context {NU : Numerics}.
Variable E : env.

(** The library calls of a complete streaming session, up to shutdown. *)
Definition session_calls (s : state) : list call :=
  fill_calls (txbuf s) (tx0_i s) ++ [iio_buffer_push (txbuf s)] ++
  List.concat (repeat (pass_calls (rxbuf s) (rx0_i s)) 2) ++
  List.concat (repeat (pass_calls (rxbuf s) (rx0_i s)) 40).

(** The conditions under which streaming meets no error: the fill loop
    ends, the push and the 42 refills succeed, the drain loops end. *)
Definition session_ok (s : state) : Prop :=
  0 < view_step E (txbuf s) (tx0_i s) (clock s) /\
  0 <= to_int64 (respond E (clock s + 3) (iio_buffer_push (txbuf s))) /\
  passes_ok E (rxbuf s) (rx0_i s) (pass_starts (clock s + 4) 42).

Lemma tx_push_ok s :
  0 <= to_int64 (respond E (clock s) (iio_buffer_push (txbuf s))) ->
  tx_push E s = Ret tt (after_call E (iio_buffer_push (txbuf s)) s).
Proof.
  intros H. unfold tx_push. exec.
  destruct (Z.ltb_spec (to_int64 (respond E (clock s) (iio_buffer_push (txbuf s)))) 0);
    [lia | reflexivity].
Qed.

Lemma bind_Ret {A B} (m : M A) (k : A -> M B) s a s' :
  m s = Ret a s' -> bind m k s = k a s'.
Proof. unfold bind. now intros ->. Qed.

Lemma bind_Halt {A B} (m : M A) (k : A -> M B) s h s' :
  m s = Halt h s' -> bind m k s = Halt h s'.
Proof. unfold bind. now intros ->. Qed.

Lemma streaming_ok s :
  session_ok s ->
  exists s',
    streaming E s = Halt (Exit 0) s' /\
    calls (trace s') = calls (trace s) ++ session_calls s ++ releases s /\
    rows in_csv (trace s') =
      rows in_csv (trace s) ++
      tone_rows txcfg (view_length E (txbuf s) (tx0_i s) (clock s)) (tone_dt txcfg) /\
    rows out_csv (trace s') =
      rows out_csv (trace s) ++
      flat_map (pass_rows E (rxbuf s) (rx0_i s)) (pass_starts (clock s + 12) 40) /\
    to_size (nrx s') =
      to_size (Z.of_nat (samples_of E (rxbuf s) (rx0_i s) (pass_starts (clock s + 12) 40))).
Proof.
  intros (Hfill & Hpush & Hrx).
  unfold streaming. cbn [bind printf log modify].
  set (s0 := emit (Printf Stdout "* Starting IO streaming\n" []) s).
  destruct (tx_fill_ok E txcfg s0 Hfill)
    as (s1 & R1 & G1 & K1 & N1 & C1 & O1 & I1 & _).
  rewrite (bind_Ret _ _ _ _ _ R1).
  assert (Eb1 : txbuf s1 = txbuf s) by (unfold same_globals in G1; tauto).
  assert (Er1 : rxbuf s1 = rxbuf s) by (unfold same_globals in G1; tauto).
  assert (Ei1 : rx0_i s1 = rx0_i s) by (unfold same_globals in G1; tauto).
  cbn [s0 clock emit txbuf tx0_i trace] in K1, C1, O1, I1.
  rewrite (bind_Ret _ _ _ _ _ (tx_push_ok s1 ltac:(rewrite Eb1, K1; exact Hpush))).
  set (s2 := after_call E (iio_buffer_push (txbuf s1)) s1).
  assert (Hrx2 : passes_ok E (rxbuf s2) (rx0_i s2) (pass_starts (clock s2) 42)).
  { cbn [s2 after_call rxbuf rx0_i clock tick emit interrupted].
    rewrite Er1, Ei1, K1. replace (S (clock s + 3)) with (clock s + 4)%nat by lia.
    exact Hrx. }
  destruct (rx_phases_ok E s2 Hrx2)
    as (s3 & s5 & _ & _ & R5 & G3 & G5 & K3 & C3 & O3 & I3 & _ & C5 & O5 & I5 & N5).
  rewrite (bind_Ret _ _ _ _ _ R5).
  cbn [bind log modify]. rewrite shutdown_eq.
  eexists. split; [reflexivity |].
  assert (G : same_globals s s5).
  { apply (same_globals_trans s s1); [exact G1 |].
    apply (same_globals_trans s1 s2); [| exact G5].
    unfold same_globals. cbn. repeat split; reflexivity. }
  cbn [s2 after_call rxbuf rx0_i clock tick emit interrupted trace] in C3, O3, I3, C5, O5, I5, N5.
  rewrite Er1, Ei1, K1 in *.
  replace (S (clock s + 3) + 8)%nat with (clock s + 12)%nat in * by lia.
  rewrite shutdown_calls, !shutdown_rows, shutdown_nrx.
  rewrite (releases_same_globals s).
  2:{ apply (same_globals_trans s s5); [exact G |].
      unfold same_globals. cbn. repeat split; reflexivity. }
  cbn [emit trace nrx after_received]. unfold received_line.
  unfold in_csv, out_csv in *.
  autorewrite with trace_db in *.
  rewrite C5, C3, C1, O5, O3, O1, I5, I1, N5.
  unfold session_calls. rewrite Eb1.
  autorewrite with trace_db.
  repeat split; reflexivity.
Qed.

End Streaming.

(** ** Buffer creation *)

Section Buffers.

Context {NU : Numerics}.
Variable E : env.

Definition create_rx (rx : Z) : call := iio_device_create_buffer rx 256 false.
Definition create_tx (tx : Z) : call := iio_device_create_buffer tx 1024 false.

(** The state after the RX buffer was requested, and after both were. *)
Definition rx_requested (rx : Z) (s : state) : state :=
  set_rxbuf (respond E (clock s) (create_rx rx))
    (after_call E (create_rx rx)
       (emit (Printf Stdout "* Creating non-cyclic IIO buffers\n" []) s)).

Definition tx_requested (rx tx : Z) (s : state) : state :=
  set_txbuf (respond E (S (clock s)) (create_tx tx))
    (after_call E (create_tx tx) (rx_requested rx s)).

Lemma create_buffers_no_rx rx tx s :
  respond E (clock s) (create_rx rx) = 0 ->
  create_buffers E rx tx s =
  Halt (Exit 0)
       (state_after_shutdown E
          (emit (Perror "Could not create RX buffer") (rx_requested rx s))).
Proof.
  intros H0. unfold create_buffers. exec. fold (create_rx rx).
  destruct (Z.eqb_spec (respond E (clock s) (create_rx rx)) 0) as [_ | Hz];
    [| contradiction].
  run. do 2 apply f_equal. reflexivity.
Qed.

Lemma create_buffers_no_tx rx tx s :
  respond E (clock s) (create_rx rx) <> 0 ->
  respond E (S (clock s)) (create_tx tx) = 0 ->
  create_buffers E rx tx s =
  Halt (Exit 0)
       (state_after_shutdown E
          (emit (Perror "Could not create TX buffer") (tx_requested rx tx s))).
Proof.
  intros H1 H0. unfold create_buffers. exec. fold (create_rx rx).
  destruct (Z.eqb_spec (respond E (clock s) (create_rx rx)) 0) as [Hz | _];
    [contradiction |].
  exec. change (256 * 4) with 1024. fold (create_tx tx).
  destruct (Z.eqb_spec (respond E (S (clock s)) (create_tx tx)) 0) as [_ | Hz];
    [| contradiction].
  run. do 2 apply f_equal. reflexivity.
Qed.

Lemma create_buffers_ok rx tx s :
  respond E (clock s) (create_rx rx) <> 0 ->
  respond E (S (clock s)) (create_tx tx) <> 0 ->
  create_buffers E rx tx s = Ret tt (tx_requested rx tx s).
Proof.
  intros H1 H2. unfold create_buffers. exec. fold (create_rx rx).
  destruct (Z.eqb_spec (respond E (clock s) (create_rx rx)) 0) as [Hz | _];
    [contradiction |].
  exec. change (256 * 4) with 1024. fold (create_tx tx).
  destruct (Z.eqb_spec (respond E (S (clock s)) (create_tx tx)) 0) as [Hz | _];
    [contradiction |].
  reflexivity.
Qed.

Lemma calls_rx_requested rx s :
  calls (trace (rx_requested rx s)) = calls (trace s) ++ [create_rx rx].
Proof.
  unfold rx_requested. exec. autorewrite with trace_db. reflexivity.
Qed.

Lemma calls_tx_requested rx tx s :
  calls (trace (tx_requested rx tx s)) = calls (trace s) ++ [create_rx rx; create_tx tx].
Proof.
  unfold tx_requested, rx_requested. exec. autorewrite with trace_db. reflexivity.
Qed.

Lemma rows_tx_requested f rx tx s :
  rows f (trace (tx_requested rx tx s)) = rows f (trace s).
Proof.
  unfold tx_requested, rx_requested. exec. autorewrite with trace_db. reflexivity.
Qed.

Lemma releases_set_rxbuf_0 rx s :
  releases (emit (Perror "Could not create RX buffer") (rx_requested rx s)) =
  releases (set_rxbuf (respond E (clock s) (create_rx rx)) s).
Proof. reflexivity. Qed.

Lemma releases_set_txbuf_0 rx tx s :
  releases (emit (Perror "Could not create TX buffer") (tx_requested rx tx s)) =
  releases (set_txbuf (respond E (S (clock s)) (create_tx tx))
              (set_rxbuf (respond E (clock s) (create_rx rx)) s)).
Proof. reflexivity. Qed.

End Buffers.

(** ** Facts about the nominal device *)

Lemma nominal_pass_ok b c n : pass_ok nominal b c n.
Proof. unfold pass_ok, view_step, view. cbn. split; reflexivity. Qed.

Lemma nominal_passes_ok b c l : passes_ok nominal b c l.
Proof. apply Forall_forall. intros n _. apply nominal_pass_ok. Qed.

Lemma nominal_rx_length c m : pass_length nominal (65536 * 256) c m = 256%nat.
Proof. vm_compute. reflexivity. Qed.

Lemma nominal_tx_length c n : view_length nominal (65536 * 1024) c n = 1024%nat.
Proof. vm_compute. reflexivity. Qed.

(** ** C2: the receive phases *)

(** What the specification says of the two receive phases started in [s]:
    [s1] is the state after the warm-up phase, [s3] after the capture
    phase. *)
Definition receive_phases_as_specified {NU : Numerics} (E : env) (s : state) : Prop :=
  exists s1 s3 warm capt,
    rx_warmup E s = Ret tt s1 /\
    rx_capture E (after_dumped s1) = Ret tt s3 /\
    rx_phases E s = Ret tt (after_received s3) /\
    (* warm-up: exactly two refills, no row written *)
    calls (trace s1) = calls (trace s) ++ warm /\
    refills warm = 2%nat /\
    new_rows out_csv s s1 = [] /\
    (* capture: exactly forty refills, one row for every element *)
    calls (trace s3) = calls (trace s1) ++ capt /\
    refills capt = 40%nat /\
    new_rows out_csv s1 s3 =
      flat_map (pass_rows E (rxbuf s) (rx0_i s)) (pass_starts (clock s + 8) 40) /\
    List.length (new_rows out_csv s1 s3) =
      samples_of E (rxbuf s) (rx0_i s) (pass_starts (clock s + 8) 40) /\
    (* with the same number of elements in every refill *)
    (forall n, (forall m, pass_length E (rxbuf s) (rx0_i s) m = n) ->
               List.length (new_rows out_csv s1 s3) = (40 * n)%nat).

(** C2. Receive drain phase counts.  In every run in which none of the
    refills fails and the reported steps are positive, the warm-up phase
    performs exactly 2 refills and writes no row, the capture phase performs
    exactly 40 refills and writes one row per element of every refilled
    buffer, whatever the buffer sizes; with [n] elements in every refill the
    recorded rows number 40 * n. *)
Theorem C2_receive_phase_counts {NU : Numerics} (E : env) (s : state) :
  passes_ok E (rxbuf s) (rx0_i s) (pass_starts (clock s) 42) ->
  receive_phases_as_specified E s.
Proof.
  intros Hok.
  destruct (rx_phases_ok E s Hok)
    as (s1 & s3 & R1 & R3 & R5 & G1 & G3 & K1 & C1 & O1 & I1 & N1 & C3 & O3 & I3 & N3).
  exists s1, s3.
  exists (List.concat (repeat (pass_calls (rxbuf s) (rx0_i s)) 2)).
  exists (List.concat (repeat (pass_calls (rxbuf s) (rx0_i s)) 40)).
  assert (Hnew : new_rows out_csv s1 s3 =
            flat_map (pass_rows E (rxbuf s) (rx0_i s)) (pass_starts (clock s + 8) 40))
    by (apply new_rows_eq; exact O3).
  split; [exact R1 |]. split; [exact R3 |]. split; [exact R5 |].
  split; [exact C1 |]. split; [apply refills_passes |].
  split. { apply new_rows_eq. now rewrite app_nil_r. }
  split; [exact C3 |]. split; [apply refills_passes |].
  split; [exact Hnew |].
  split. { rewrite Hnew. apply length_flat_map_rows. }
  intros n Hn. rewrite Hnew, length_flat_map_rows.
  rewrite (samples_of_uniform E _ _ _ n Hn), length_pass_starts. reflexivity.
Qed.

Lemma C2_receive_phase_counts_witness :
  passes_ok nominal (rxbuf ready) (rx0_i ready) (pass_starts (clock ready) 42) /\
  receive_phases_as_specified (NU := ideal) nominal ready.
Proof.
  split; [apply nominal_passes_ok |].
  apply (C2_receive_phase_counts (NU := ideal) nominal ready).
  apply nominal_passes_ok.
Defined.

(** ** C8: the sample counter *)

(** The claim as the specification states it: after the capture phase, too,
    the counter is reset to zero once it has been reported. *)
Definition C8_as_stated {NU : Numerics} (E : env) (s : state) : Prop :=
  forall s', rx_phases E s = Ret tt s' -> nrx s' = 0.

(** C8, counterexample.  On the nominal device (256 elements per refill)
    the receive phases end with the counter at 40 * 256 = 10240: line 384
    of the source prints the counter and does not reset it. *)
Lemma C8_no_reset_counterexample :
  ~ C8_as_stated (NU := ideal) nominal ready.
Proof.
  unfold C8_as_stated. intros H.
  destruct (rx_phases_ok (NU := ideal) nominal ready (nominal_passes_ok _ _ _))
    as (s1 & s3 & _ & _ & R5 & _ & _ & _ & _ & _ & _ & _ & _ & _ & _ & N3).
  specialize (H _ R5). cbn [after_received nrx emit] in H.
  rewrite H in N3.
  rewrite (samples_of_uniform nominal _ _ _ 256%nat) in N3
    by (intros m; apply nominal_rx_length).
  rewrite length_pass_starts in N3. vm_compute in N3. discriminate N3.
Qed.

(** What the code does with the counter around the two reports. *)
Definition counter_reports_hold {NU : Numerics} (E : env) (s : state) : Prop :=
  exists s1 s3,
    rx_warmup E s = Ret tt s1 /\
    rx_capture E (after_dumped s1) = Ret tt s3 /\
    rx_phases E s = Ret tt (after_received s3) /\
    (* after the warm-up phase: reported, then reset *)
    to_size (nrx s1) =
      to_size (nrx s + Z.of_nat (samples_of E (rxbuf s) (rx0_i s) (pass_starts (clock s) 2))) /\
    trace (after_dumped s1) = trace s1 ++ [dumped_line (nrx s1)] /\
    nrx (after_dumped s1) = 0 /\
    (* after the capture phase: reported, not reset *)
    to_size (nrx s3) =
      to_size (Z.of_nat (samples_of E (rxbuf s) (rx0_i s) (pass_starts (clock s + 8) 40))) /\
    trace (after_received s3) = trace s3 ++ [received_line (nrx s3)] /\
    nrx (after_received s3) = nrx s3.

(** C8, amended.  After the warm-up phase the running sample counter (the
    number of elements traversed, modulo 2^64) is reported by a diagnostic
    line and then reset to zero; after the capture phase the counter, which
    then counts the captured elements only, is reported by a diagnostic line
    and keeps its value. *)
Theorem C8_counter_reports {NU : Numerics} (E : env) (s : state) :
  passes_ok E (rxbuf s) (rx0_i s) (pass_starts (clock s) 42) ->
  counter_reports_hold E s.
Proof.
  intros Hok.
  destruct (rx_phases_ok E s Hok)
    as (s1 & s3 & R1 & R3 & R5 & G1 & G3 & K1 & C1 & O1 & I1 & N1 & C3 & O3 & I3 & N3).
  exists s1, s3.
  split; [exact R1 |]. split; [exact R3 |]. split; [exact R5 |].
  split; [exact N1 |]. split; [reflexivity |]. split; [reflexivity |].
  split; [exact N3 |]. split; reflexivity.
Qed.

Lemma C8_counter_reports_witness :
  passes_ok nominal (rxbuf ready) (rx0_i ready) (pass_starts (clock ready) 42) /\
  counter_reports_hold (NU := ideal) nominal ready.
Proof.
  split; [apply nominal_passes_ok |].
  apply (C8_counter_reports (NU := ideal) nominal ready).
  apply nominal_passes_ok.
Defined.

(** ** C9: buffer traversal *)








(** ** C10: buffer sizing *)

Definition buffer_sizing_as_specified {NU : Numerics} (E : env) (rx tx : Z)
    (s : state) : Prop :=
  let r1 := respond E (clock s) (create_rx rx) in
  let r2 := respond E (S (clock s)) (create_tx tx) in
  let held := set_txbuf r2 (set_rxbuf r1 s) in
  (* the RX buffer is not created: shutdown *)
  (r1 = 0 ->
   exists s', run_streams E rx tx s = Halt (Exit 0) s' /\
     calls (trace s') = calls (trace s) ++ create_rx rx :: releases (set_rxbuf r1 s)) /\
  (* the TX buffer is not created: shutdown *)
  (r1 <> 0 -> r2 = 0 ->
   exists s', run_streams E rx tx s = Halt (Exit 0) s' /\
     calls (trace s') =
       calls (trace s) ++ create_rx rx :: create_tx tx :: releases held) /\
  (* both are created, no later error, full buffers *)
  (r1 <> 0 -> r2 <> 0 ->
   session_ok E (tick (tick held)) ->
   view_length E r2 (tx0_i s) (S (S (clock s))) = 1024%nat ->
   (forall m, pass_length E r1 (rx0_i s) m = 256%nat) ->
   exists s', run_streams E rx tx s = Halt (Exit 0) s' /\
     calls (trace s') =
       calls (trace s) ++ create_rx rx :: create_tx tx ::
       session_calls held ++ releases held /\
     List.length (new_rows in_csv s s') = 1024%nat /\
     List.length (new_rows out_csv s s') = (40 * 256)%nat).

(** C10. Buffer sizing.  The RX buffer is requested with 256 samples and the
    TX buffer with 256 * 4 = 1024 samples, both non-cyclic, in this order; a
    NULL result of either request leads to the shutdown sequencer with no
    further library call but the releases; when both succeed, no later call
    fails, and the library exposes the full buffers, the fill pass writes
    exactly 1024 sample pairs and the capture phase records exactly
    40 * 256 = 10240 samples. *)
Theorem C10_buffer_sizing {NU : Numerics} (E : env) (rx tx : Z) (s : state) :
  buffer_sizing_as_specified E rx tx s.
Proof.
  unfold buffer_sizing_as_specified. cbv zeta.
  split; [| split].
  - intros H0. eexists. split.
    + unfold run_streams. erewrite bind_Halt; [reflexivity |].
      now apply create_buffers_no_rx.
    + rewrite shutdown_calls, releases_set_rxbuf_0.
      cbn [emit trace]. autorewrite with trace_db.
      rewrite calls_rx_requested. now rewrite <- app_assoc.
  - intros H1 H0. eexists. split.
    + unfold run_streams. erewrite bind_Halt; [reflexivity |].
      now apply create_buffers_no_tx.
    + rewrite shutdown_calls, releases_set_txbuf_0.
      cbn [emit trace]. autorewrite with trace_db.
      rewrite calls_tx_requested. now rewrite <- app_assoc.
  - intros H1 H2 Hok Htx Hrx.
    unfold run_streams.
    rewrite (bind_Ret _ _ _ _ _ (create_buffers_ok E rx tx s H1 H2)).
    cbn [bind log modify].
    match goal with |- context [streaming E ?t] =>
      destruct (streaming_ok E t Hok) as (s' & R & C & I & O & _) end.
    exists s'. split; [exact R |].
    cbn [emit trace] in C, I, O. unfold in_csv, out_csv in *.
    autorewrite with trace_db in C, I, O.
    rewrite calls_tx_requested in C. rewrite !rows_tx_requested in I, O.
    cbn [app emit txbuf tx0_i rxbuf rx0_i clock tx_requested rx_requested
         set_txbuf set_rxbuf after_call tick interrupted] in I, O.
    split.
    { rewrite C. rewrite <- app_assoc. reflexivity. }
    split.
    { rewrite (new_rows_eq _ _ _ _ I), length_tone_rows. exact Htx. }
    rewrite (new_rows_eq _ _ _ _ O), length_flat_map_rows.
    rewrite (samples_of_uniform E _ _ _ 256%nat) by exact Hrx.
    rewrite length_pass_starts. reflexivity.
Qed.

(** The state of [main] on the nominal device before the buffers are
    requested. *)
Definition configured : state :=
  mkState 1 21 22 23 24 0 0 false 0 (fun _ => 0) 38%nat [].

Lemma C10_buffer_sizing_witness :
  exists s',
    run_streams (NU := ideal) nominal 17 16 configured = Halt (Exit 0) s' /\
    List.length (new_rows in_csv configured s') = 1024%nat /\
    List.length (new_rows out_csv configured s') = (40 * 256)%nat.
Proof.
  destruct (C10_buffer_sizing (NU := ideal) nominal 17 16 configured) as (_ & _ & H).
  destruct H as (s' & R & _ & I & O).
  - discriminate.
  - discriminate.
  - split; [reflexivity |]. split; [reflexivity |]. apply nominal_passes_ok.
  - apply nominal_tx_length.
  - intros m. apply nominal_rx_length.
  - exists s'. auto.
Defined.

(** ** Two runs side by side

    Two runs on oracles [E1] and [E2] that answer every library call alike.
    The traces are compared through [phi], which may erase what the two runs
    are allowed to differ in; the values that attribute reads store may
    differ as far as [QZ] and [QS] allow.  The [stop] flag is not
    compared. *)

Section Simulation.

Context {NU : Numerics}.
Variables E1 E2 : env.
Variable phi : list event -> list event.
Variable QZ : Z -> Z -> Prop.
Variable QS : string -> string -> Prop.

Hypothesis phi_app : forall a b, phi (a ++ b) = phi a ++ phi b.
Hypothesis same_respond : forall n c, respond E1 n c = respond E2 n c.
Hypothesis same_refilled : forall n, refilled E1 n = refilled E2 n.
Hypothesis same_signals :
  forall n, phi (map sigmsg (signals E1 n)) = phi (map sigmsg (signals E2 n)).
Hypothesis read_ll :
  forall n, QZ (to_int64 (read_longlong E1 n)) (to_int64 (read_longlong E2 n)).
Hypothesis read_s : forall n, QS (read_string E1 n) (read_string E2 n).
Hypothesis log_tx_gain :
  forall a b, QZ a b ->
    phi [Printf Stdout "* TX gain/attenuation value %lld\n" [AInt a]] =
    phi [Printf Stdout "* TX gain/attenuation value %lld\n" [AInt b]].
Hypothesis log_rx_gain :
  forall a b u v, QZ a b -> QS u v ->
    phi [Printf Stdout "* RX gain is %lld, mode is %s\n" [AInt a; AStr u]] =
    phi [Printf Stdout "* RX gain is %lld, mode is %s\n" [AInt b; AStr v]].

Definition alike (s1 s2 : state) : Prop :=
  ctx s1 = ctx s2 /\ rx0_i s1 = rx0_i s2 /\ rx0_q s1 = rx0_q s2 /\
  tx0_i s1 = tx0_i s2 /\ tx0_q s1 = tx0_q s2 /\
  rxbuf s1 = rxbuf s2 /\ txbuf s1 = txbuf s2 /\
  nrx s1 = nrx s2 /\ mem s1 = mem s2 /\ clock s1 = clock s2 /\
  phi (trace s1) = phi (trace s2).

Definition alike_out {A} (Q : A -> A -> Prop) (o1 o2 : outcome A) : Prop :=
  match o1, o2 with
  | Ret a1 s1, Ret a2 s2 => Q a1 a2 /\ alike s1 s2
  | Halt h1 s1, Halt h2 s2 => h1 = h2 /\ alike s1 s2
  | _, _ => False
  end.

Definition sim {A} (Q : A -> A -> Prop) (m1 m2 : M A) : Prop :=
  forall s1 s2, alike s1 s2 -> alike_out Q (m1 s1) (m2 s2).

Ltac open_alike H :=
  destruct H as (? & ? & ? & ? & ? & ? & ? & ? & ? & ? & ?).

Ltac close_alike :=
  unfold alike;
  cbn [ctx rx0_i rx0_q tx0_i tx0_q rxbuf txbuf nrx mem clock trace stop
       set_ctx set_rx0_i set_rx0_q set_tx0_i set_tx0_q set_rxbuf set_txbuf
       set_stop set_nrx set_mem tick emit];
  rewrite ?phi_app, ?same_refilled;
  repeat split; congruence.

Lemma sim_ret {A} (Q : A -> A -> Prop) a1 a2 : Q a1 a2 -> sim Q (ret a1) (ret a2).
Proof. intros HQ s1 s2 HA. cbn. auto. Qed.

Lemma sim_bind {A B} (Q : A -> A -> Prop) (Q' : B -> B -> Prop)
    (m1 m2 : M A) (k1 k2 : A -> M B) :
  sim Q m1 m2 ->
  (forall a1 a2, Q a1 a2 -> sim Q' (k1 a1) (k2 a2)) ->
  sim Q' (bind m1 k1) (bind m2 k2).
Proof.
  intros Hm Hk s1 s2 HA. unfold bind. specialize (Hm s1 s2 HA).
  destruct (m1 s1) as [a1 t1 | h1 t1], (m2 s2) as [a2 t2 | h2 t2];
    cbn in Hm; try contradiction.
  - destruct Hm as [HQ HA']. now apply Hk.
  - exact Hm.
Qed.

Lemma sim_gets {A} (f : state -> A) :
  (forall s1 s2, alike s1 s2 -> f s1 = f s2) -> sim eq (gets f) (gets f).
Proof. intros Hf s1 s2 HA. cbn. auto. Qed.

Lemma sim_modify (f1 f2 : state -> state) :
  (forall s1 s2, alike s1 s2 -> alike (f1 s1) (f2 s2)) ->
  sim eq (modify f1) (modify f2).
Proof. intros Hf s1 s2 HA. cbn. auto. Qed.

Lemma sim_log e1 e2 : phi [e1] = phi [e2] -> sim eq (log e1) (log e2).
Proof.
  intros He. apply sim_modify. intros s1 s2 HA. open_alike HA. close_alike.
Qed.

Lemma sim_printf to fmt args : sim eq (printf to fmt args) (printf to fmt args).
Proof. now apply sim_log. Qed.

Lemma sim_stop_with {A} (Q : A -> A -> Prop) h : sim Q (stop_with h) (stop_with h).
Proof. intros s1 s2 HA. cbn. auto. Qed.

Lemma sim_iio c : sim eq (iio E1 c) (iio E2 c).
Proof.
  intros s1 s2 HA. rewrite !iio_eq. cbn [alike_out].
  open_alike HA. split.
  - rewrite same_respond. congruence.
  - unfold after_call, interrupted.
    unfold alike;
    cbn [ctx rx0_i rx0_q tx0_i tx0_q rxbuf txbuf nrx mem clock trace tick emit].
    rewrite !phi_app, same_signals.
    repeat split; congruence.
Qed.

Lemma sim_iio_void c : sim eq (iio_void E1 c) (iio_void E2 c).
Proof.
  unfold iio_void. eapply sim_bind; [apply sim_iio |].
  intros. now apply sim_ret.
Qed.

Lemma sim_if_set p f : sim eq (if_set E1 p f) (if_set E2 p f).
Proof.
  unfold if_set. destruct (p =? 0); [now apply sim_ret | apply sim_iio_void].
Qed.

Lemma sim_for_ptr {A} (Q : A -> A -> Prop) (body1 body2 : Z -> A -> M A) p_end p_inc :
  (forall p a1 a2, Q a1 a2 -> sim Q (body1 p a1) (body2 p a2)) ->
  forall fuel p a1 a2, Q a1 a2 ->
    sim Q (for_ptr fuel p p_end p_inc body1 a1) (for_ptr fuel p p_end p_inc body2 a2).
Proof.
  intros Hb. induction fuel as [| fuel IH]; intros p a1 a2 HQ; cbn [for_ptr].
  - destruct (p <? p_end); [apply sim_stop_with | now apply sim_ret].
  - destruct (p <? p_end); [| now apply sim_ret].
    eapply sim_bind; [now apply Hb |]. intros. now apply IH.
Qed.

Lemma sim_repeat_n (m1 m2 : M unit) n :
  sim eq m1 m2 -> sim eq (repeat_n n m1) (repeat_n n m2).
Proof.
  intros Hm. induction n as [| n IH]; cbn [repeat_n].
  - now apply sim_ret.
  - eapply sim_bind; [exact Hm |]. intros. exact IH.
Qed.

(** The functions of the program, one by one. *)

Ltac sim_leaf :=
  first
    [ apply sim_iio | apply sim_iio_void | apply sim_if_set
    | apply sim_stop_with
    | apply sim_gets; intros ? ? HA; open_alike HA; assumption
    | apply sim_modify; intros ? ? HA; open_alike HA; close_alike
    | apply sim_log;
      first [ reflexivity
            | apply log_tx_gain; assumption
            | apply log_rx_gain; assumption ]
    | apply sim_ret; first [ reflexivity | apply read_ll | apply read_s ]
    | solve [ eauto with simdb ] ].

Ltac sim_go :=
  unfold printf;
  lazymatch goal with
  | |- sim _ (bind _ _) (bind _ _) =>
      eapply sim_bind;
      [ sim_go | let H := fresh "HQ" in intros ? ? H; try subst; sim_go ]
  | |- sim _ (if ?b then _ else _) (if ?b then _ else _) => destruct b; sim_go
  | |- sim _ (match ?x with _ => _ end) (match ?x with _ => _ end) =>
      destruct x; sim_go
  | |- sim _ (for_ptr _ _ _ _ _ _) (for_ptr _ _ _ _ _ _) =>
      apply (sim_for_ptr eq); [ intros ? ? ? ?; subst; sim_go | reflexivity ]
  | |- sim _ (repeat_n _ _) (repeat_n _ _) => apply sim_repeat_n; sim_go
  | |- _ => sim_leaf
  end.

Create HintDb simdb.

Lemma sim_shutdown : sim eq (shutdown E1) (shutdown E2).
Proof. unfold shutdown. sim_go. Qed.
#[local] Hint Resolve sim_shutdown : simdb.

Lemma sim_IIO_ENSURE b line : sim eq (IIO_ENSURE b line) (IIO_ENSURE b line).
Proof. unfold IIO_ENSURE. sim_go. Qed.
#[local] Hint Resolve sim_IIO_ENSURE : simdb.

Lemma sim_errchk v what : sim eq (errchk E1 v what) (errchk E2 v what).
Proof. unfold errchk. sim_go. Qed.
#[local] Hint Resolve sim_errchk : simdb.

Lemma sim_wr_ch_lli chn what val :
  sim eq (wr_ch_lli E1 chn what val) (wr_ch_lli E2 chn what val).
Proof. unfold wr_ch_lli. sim_go. Qed.
#[local] Hint Resolve sim_wr_ch_lli : simdb.

Lemma sim_rd_ch_lli chn what : sim QZ (rd_ch_lli E1 chn what) (rd_ch_lli E2 chn what).
Proof. unfold rd_ch_lli. sim_go. Qed.
#[local] Hint Resolve sim_rd_ch_lli : simdb.

Lemma sim_wr_ch_str chn what str :
  sim eq (wr_ch_str E1 chn what str) (wr_ch_str E2 chn what str).
Proof. unfold wr_ch_str. sim_go. Qed.
#[local] Hint Resolve sim_wr_ch_str : simdb.

Lemma sim_rd_ch_str chn what len :
  sim QS (rd_ch_str E1 chn what len) (rd_ch_str E2 chn what len).
Proof. unfold rd_ch_str. sim_go. Qed.
#[local] Hint Resolve sim_rd_ch_str : simdb.

Lemma sim_get_ad9361_phy : sim eq (get_ad9361_phy E1) (get_ad9361_phy E2).
Proof. unfold get_ad9361_phy. sim_go. Qed.
#[local] Hint Resolve sim_get_ad9361_phy : simdb.

Lemma sim_get_ad9361_stream_dev d :
  sim eq (get_ad9361_stream_dev E1 d) (get_ad9361_stream_dev E2 d).
Proof. unfold get_ad9361_stream_dev. sim_go. Qed.
#[local] Hint Resolve sim_get_ad9361_stream_dev : simdb.

Lemma sim_get_ad9361_stream_ch d dev chid :
  sim eq (get_ad9361_stream_ch E1 d dev chid) (get_ad9361_stream_ch E2 d dev chid).
Proof. unfold get_ad9361_stream_ch. sim_go. Qed.
#[local] Hint Resolve sim_get_ad9361_stream_ch : simdb.

Lemma sim_get_phy_chan d chid : sim eq (get_phy_chan E1 d chid) (get_phy_chan E2 d chid).
Proof. unfold get_phy_chan. sim_go. Qed.
#[local] Hint Resolve sim_get_phy_chan : simdb.

Lemma sim_get_lo_chan d : sim eq (get_lo_chan E1 d) (get_lo_chan E2 d).
Proof. unfold get_lo_chan. sim_go. Qed.
#[local] Hint Resolve sim_get_lo_chan : simdb.

Lemma sim_cfg_gain cfg type chn :
  sim eq (cfg_gain E1 cfg type chn) (cfg_gain E2 cfg type chn).
Proof. unfold cfg_gain. sim_go. Qed.
#[local] Hint Resolve sim_cfg_gain : simdb.

Lemma sim_cfg_ad9361_streaming_ch cfg type chid :
  sim eq (cfg_ad9361_streaming_ch E1 cfg type chid)
         (cfg_ad9361_streaming_ch E2 cfg type chid).
Proof. unfold cfg_ad9361_streaming_ch. sim_go. Qed.
#[local] Hint Resolve sim_cfg_ad9361_streaming_ch : simdb.

Lemma sim_acquire_context argv :
  sim eq (acquire_context E1 argv) (acquire_context E2 argv).
Proof. unfold acquire_context. sim_go. Qed.
#[local] Hint Resolve sim_acquire_context : simdb.

Lemma sim_init_channels rx tx :
  sim eq (init_channels E1 rx tx) (init_channels E2 rx tx).
Proof. unfold init_channels. sim_go. Qed.
#[local] Hint Resolve sim_init_channels : simdb.

Lemma sim_create_buffers rx tx :
  sim eq (create_buffers E1 rx tx) (create_buffers E2 rx tx).
Proof. unfold create_buffers. sim_go. Qed.
#[local] Hint Resolve sim_create_buffers : simdb.

Lemma sim_tx_body cfg p i : sim eq (tx_body cfg p i) (tx_body cfg p i).
Proof. unfold tx_body. sim_go. Qed.
#[local] Hint Resolve sim_tx_body : simdb.

Lemma sim_tx_fill cfg : sim eq (tx_fill E1 cfg) (tx_fill E2 cfg).
Proof. unfold tx_fill. sim_go. Qed.
#[local] Hint Resolve sim_tx_fill : simdb.

Lemma sim_tx_push : sim eq (tx_push E1) (tx_push E2).
Proof. unfold tx_push. sim_go. Qed.
#[local] Hint Resolve sim_tx_push : simdb.

Lemma sim_rx_refill : sim eq (rx_refill E1) (rx_refill E2).
Proof. unfold rx_refill. sim_go. Qed.
#[local] Hint Resolve sim_rx_refill : simdb.

Lemma sim_count_sample : sim eq count_sample count_sample.
Proof. unfold count_sample. sim_go. Qed.
#[local] Hint Resolve sim_count_sample : simdb.

Lemma sim_rx_body p u : sim eq (rx_body p u) (rx_body p u).
Proof. unfold rx_body. sim_go. Qed.
#[local] Hint Resolve sim_rx_body : simdb.

Lemma sim_rx_warmup : sim eq (rx_warmup E1) (rx_warmup E2).
Proof. unfold rx_warmup, rx_warmup_pass. sim_go. Qed.
#[local] Hint Resolve sim_rx_warmup : simdb.

Lemma sim_rx_capture : sim eq (rx_capture E1) (rx_capture E2).
Proof. unfold rx_capture, rx_capture_pass. sim_go. Qed.
#[local] Hint Resolve sim_rx_capture : simdb.

Lemma sim_rx_phases : sim eq (rx_phases E1) (rx_phases E2).
Proof. unfold rx_phases, report_dumped, report_received. sim_go. Qed.
#[local] Hint Resolve sim_rx_phases : simdb.

Lemma sim_streaming : sim eq (streaming E1) (streaming E2).
Proof. unfold streaming. sim_go. Qed.
#[local] Hint Resolve sim_streaming : simdb.

Lemma sim_run_streams rx tx : sim eq (run_streams E1 rx tx) (run_streams E2 rx tx).
Proof. unfold run_streams. sim_go. Qed.
#[local] Hint Resolve sim_run_streams : simdb.

Lemma sim_main argv : sim eq (main E1 argv) (main E2 argv).
Proof. unfold main. sim_go. Qed.

End Simulation.

(** ** C5: the stop flag *)

Lemma flat_map_filter {A B} (g : A -> list B) (keep : A -> bool) (t : list A) :
  (forall e, keep e = false -> g e = []) ->
  flat_map g (filter keep t) = flat_map g t.
Proof.
  intros H. induction t as [| e t IH]; [reflexivity |].
  cbn [filter flat_map]. destruct (keep e) eqn:K.
  - cbn [flat_map]. now rewrite IH.
  - now rewrite (H e K), IH.
Qed.

Lemma sigmsg_call_of e : negb (is_sigmsg e) = false -> call_of e = [].
Proof. destruct e; cbn; try discriminate. reflexivity. Qed.

Lemma sigmsg_row_of f e : negb (is_sigmsg e) = false -> row_of f e = [].
Proof.
  destruct e as [c | to fmt args | m | name mode | name | n h]; cbn; try discriminate.
  destruct to; cbn; try discriminate. reflexivity.
Qed.

Lemma calls_quiet t : calls (quiet t) = calls t.
Proof. apply flat_map_filter, sigmsg_call_of. Qed.

Lemma rows_quiet f t : rows f (quiet t) = rows f t.
Proof. apply flat_map_filter, sigmsg_row_of. Qed.

(** How a run ended: [None] for a return. *)
Definition ending {A} (o : outcome A) : option halt :=
  match o with Ret _ _ => None | Halt h _ => Some h end.

(** Two oracles that differ at most in the signals they deliver. *)
Definition same_hardware (E1 E2 : env) : Prop :=
  (forall n c, respond E1 n c = respond E2 n c) /\
  (forall n, read_longlong E1 n = read_longlong E2 n) /\
  (forall n, read_string E1 n = read_string E2 n) /\
  (forall n, refilled E1 n = refilled E2 n).

(** Two states that differ at most in the stop flag. *)
Definition same_but_stop (s1 s2 : state) : Prop :=
  ctx s1 = ctx s2 /\ rx0_i s1 = rx0_i s2 /\ rx0_q s1 = rx0_q s2 /\
  tx0_i s1 = tx0_i s2 /\ tx0_q s1 = tx0_q s2 /\
  rxbuf s1 = rxbuf s2 /\ txbuf s1 = txbuf s2 /\
  nrx s1 = nrx s2 /\ mem s1 = mem s2 /\ clock s1 = clock s2 /\
  trace s1 = trace s2.

Definition runs_agree {A} (o1 o2 : outcome A) : Prop :=
  ending o1 = ending o2 /\
  quiet (trace (final o1)) = quiet (trace (final o2)) /\
  calls (trace (final o1)) = calls (trace (final o2)) /\
  refills (calls (trace (final o1))) = refills (calls (trace (final o2))) /\
  rows in_csv (trace (final o1)) = rows in_csv (trace (final o2)) /\
  rows out_csv (trace (final o1)) = rows out_csv (trace (final o2)) /\
  nrx (final o1) = nrx (final o2).

(** C5. Interrupt flag noninterference.  The handler prints its line and
    sets [stop], nothing else.  Two runs of [main] on the same arguments whose
    library calls are answered alike, started from states that differ at most
    in [stop] and interrupted by any signals at any library calls, end the
    same way, make the same library calls (hence the same numbers of warm-up
    and capture iterations), write the same rows to input.csv and
    output.csv and print the same lines apart from those of the handler. *)
Theorem C5_stop_flag_is_inert {NU : Numerics} (E1 E2 : env) (argv : list string)
    (s1 s2 : state) :
  same_hardware E1 E2 ->
  same_but_stop s1 s2 ->
  (forall sig s,
     handle_sig sig s = Ret tt (set_stop true (emit (sigmsg sig) s))) /\
  runs_agree (main E1 argv s1) (main E2 argv s2).
Proof.
  intros (Hr & Hl & Hs & Hm) HS.
  split; [reflexivity |].
  assert (HA : alike quiet s1 s2).
  { unfold same_but_stop in HS. unfold alike.
    repeat match goal with H : _ /\ _ |- _ => destruct H end.
    repeat split; congruence. }
  pose proof (sim_main E1 E2 quiet eq eq quiet_app Hr Hm) as Hsim.
  specialize (Hsim ltac:(intros; now rewrite !quiet_sigmsgs)).
  specialize (Hsim ltac:(intros; now rewrite Hl)).
  specialize (Hsim Hs).
  specialize (Hsim ltac:(intros; now subst)).
  specialize (Hsim ltac:(intros; now subst)).
  specialize (Hsim argv s1 s2 HA).
  unfold runs_agree.
  destruct (main E1 argv s1) as [a1 t1 | h1 t1], (main E2 argv s2) as [a2 t2 | h2 t2];
    cbn in Hsim; try contradiction; destruct Hsim as [Hv Ht];
    destruct Ht as (_ & _ & _ & _ & _ & _ & _ & Hn & _ & _ & Hq);
    cbn [ending final];
    (split; [congruence |]); (split; [exact Hq |]);
    rewrite <- (calls_quiet (trace t1)), <- (calls_quiet (trace t2)),
            <- (rows_quiet in_csv (trace t1)), <- (rows_quiet in_csv (trace t2)),
            <- (rows_quiet out_csv (trace t1)), <- (rows_quiet out_csv (trace t2)),
            Hq;
    repeat split; try reflexivity; exact Hn.
Qed.

(** The nominal device with a SIGINT delivered before library call 60,
    in the middle of the warm-up phase. *)
Definition interrupted_nominal : env := {|
  respond := respond nominal;
  read_longlong := read_longlong nominal;
  read_string := read_string nominal;
  refilled := refilled nominal;
  signals := fun n => if (n =? 60)%nat then [SIGINT] else []
|}.

Lemma C5_stop_flag_is_inert_witness :
  same_hardware nominal interrupted_nominal /\
  same_but_stop (initial (fun _ => 0)) (initial (fun _ => 0)) /\
  runs_agree (main (NU := ideal) nominal ["a.out"%string] (initial (fun _ => 0)))
             (main (NU := ideal) interrupted_nominal ["a.out"%string] (initial (fun _ => 0))).
Proof.
  split; [repeat split |].
  split; [repeat split |].
  apply (C5_stop_flag_is_inert (NU := ideal) nominal interrupted_nominal
           ["a.out"%string] (initial (fun _ => 0)) (initial (fun _ => 0))).
  - repeat split.
  - repeat split.
Defined.

(** ** C6: attribute I/O failures *)

(** The four attribute wrappers and their arguments. *)
Inductive attr_op : Type :=
| Wr_lli (chn : Z) (what : string) (val : Z)
| Rd_lli (chn : Z) (what : string)
| Wr_str (chn : Z) (what : string) (str : string)
| Rd_str (chn : Z) (what : string) (len : Z).

(** The library call behind a wrapper, and the attribute it names. *)
Definition attr_call (op : attr_op) : call :=
  match op with
  | Wr_lli chn what val => iio_channel_attr_write_longlong chn what val
  | Rd_lli chn what => iio_channel_attr_read_longlong chn what
  | Wr_str chn what str => iio_channel_attr_write chn what str
  | Rd_str chn what len => iio_channel_attr_read chn what len
  end.

Definition attr_what (op : attr_op) : string :=
  match op with
  | Wr_lli _ what _ | Rd_lli _ what | Wr_str _ what _ | Rd_str _ what _ => what
  end.

Definition attr_wrapper (E : env) (op : attr_op) : M unit :=
  match op with
  | Wr_lli chn what val => wr_ch_lli E chn what val
  | Rd_lli chn what => rd_ch_lli E chn what ;; ret tt
  | Wr_str chn what str => wr_ch_str E chn what str
  | Rd_str chn what len => rd_ch_str E chn what len ;; ret tt
  end.

Definition is_attr_call (c : call) : bool :=
  match c with
  | iio_channel_attr_write_longlong _ _ _ | iio_channel_attr_read_longlong _ _
  | iio_channel_attr_write _ _ _ | iio_channel_attr_read _ _ _ => true
  | _ => false
  end.

(** The diagnostic of [errchk]. *)
Definition attr_diagnostic (v : Z) (what : string) : event :=
  Printf Stderr errchk_fmt [AInt v; AStr what].

Lemma errchk_neg (E : env) v what s :
  v < 0 ->
  errchk E v what s =
  Halt (Exit 0) (state_after_shutdown E (emit (attr_diagnostic v what) s)).
Proof.
  intros Hv. unfold errchk. destruct (Z.ltb_spec v 0); [| lia]. run. reflexivity.
Qed.

Lemma errchk_ok (E : env) v what s : 0 <= v -> errchk E v what s = Ret tt s.
Proof. intros Hv. unfold errchk. destruct (Z.ltb_spec v 0); [lia | reflexivity]. Qed.

Lemma to_int32_of_ssize v : int32_range v -> to_int32 (to_int64 v) = v.
Proof.
  intros H. unfold to_int64. rewrite wrap_signed_id.
  - now apply to_int32_id.
  - lia.
  - unfold int32_range in H. lia.
Qed.

Lemma releases_not_attr s : filter is_attr_call (releases s) = [].
Proof.
  unfold releases, held.
  destruct (rxbuf s =? 0), (txbuf s =? 0), (rx0_i s =? 0), (rx0_q s =? 0),
    (tx0_i s =? 0), (tx0_q s =? 0), (ctx s =? 0); reflexivity.
Qed.

(** The library calls that a run added. *)
Definition new_calls (s s' : state) : list call :=
  skipn (List.length (calls (trace s))) (calls (trace s')).

Lemma new_calls_eq s s' l :
  calls (trace s') = calls (trace s) ++ l -> new_calls s s' = l.
Proof. unfold new_calls. intros ->. apply skipn_length_app. Qed.

Definition attr_failure_handling (E : env) (op : attr_op) (s : state) : Prop :=
  let v := respond E (clock s) (attr_call op) in
  let o := attr_wrapper E op s in
  (* a negative result: the diagnostic, then the shutdown sequencer *)
  (v < 0 ->
   o = Halt (Exit 0)
         (state_after_shutdown E
            (emit (attr_diagnostic v (attr_what op)) (after_call E (attr_call op) s))) /\
   new_calls s (final o) = attr_call op :: releases s) /\
  (* otherwise execution continues; only the call itself has happened *)
  (0 <= v ->
   o = Ret tt (after_call E (attr_call op) s) /\
   new_calls s (final o) = [attr_call op]) /\
  (* in both cases the library call is made exactly once *)
  List.length (filter is_attr_call (new_calls s (final o))) = 1%nat.

(** C6. Attribute I/O failure handling.  For each of the four attribute
    wrappers, whenever the library's result [v] fits the [int] parameter of
    [errchk]: if [v] is negative, the diagnostic naming the attribute and
    [v] is printed to stderr and the shutdown sequencer runs (the process
    exits); if [v] is not negative, the wrapper returns and nothing but the
    library call has happened; in both cases the attribute call is made
    exactly once, so nothing is retried. *)
Theorem C6_attribute_failures (E : env) (op : attr_op) (s : state) :
  int32_range (respond E (clock s) (attr_call op)) ->
  attr_failure_handling E op s.
Proof.
  intros Hrange. unfold attr_failure_handling. cbv zeta.
  set (v := respond E (clock s) (attr_call op)) in *.
  assert (Hneg : v < 0 ->
    attr_wrapper E op s =
    Halt (Exit 0)
      (state_after_shutdown E
         (emit (attr_diagnostic v (attr_what op)) (after_call E (attr_call op) s)))).
  { intros Hv. subst v.
    destruct op; cbn [attr_wrapper attr_call attr_what] in *;
      unfold wr_ch_lli, rd_ch_lli, wr_ch_str, rd_ch_str; run;
      rewrite ?to_int32_of_ssize, ?to_int32_id by exact Hrange;
      first [ now apply errchk_neg
            | erewrite bind_Halt; [reflexivity | now apply errchk_neg] ]. }
  assert (Hpos : 0 <= v ->
    attr_wrapper E op s = Ret tt (after_call E (attr_call op) s)).
  { intros Hv. subst v.
    destruct op; cbn [attr_wrapper attr_call attr_what] in *;
      unfold wr_ch_lli, rd_ch_lli, wr_ch_str, rd_ch_str; run;
      rewrite ?to_int32_of_ssize, ?to_int32_id by exact Hrange;
      first [ now apply errchk_ok
            | erewrite bind_Ret by (now apply errchk_ok); reflexivity ]. }
  assert (Hcn : v < 0 ->
    new_calls s (state_after_shutdown E
      (emit (attr_diagnostic v (attr_what op)) (after_call E (attr_call op) s)))
    = attr_call op :: releases s).
  { intros _. apply new_calls_eq. rewrite shutdown_calls.
    unfold attr_diagnostic. rewrite emit_calls_printf, calls_after_call.
    rewrite <- app_assoc. reflexivity. }
  assert (Hcp : new_calls s (after_call E (attr_call op) s) = [attr_call op]).
  { apply new_calls_eq. apply calls_after_call. }
  split; [| split].
  - intros Hv. rewrite (Hneg Hv). cbn [final]. auto.
  - intros Hv. rewrite (Hpos Hv). cbn [final]. auto.
  - destruct (Z_lt_le_dec v 0) as [Hv | Hv].
    + rewrite (Hneg Hv). cbn [final]. rewrite (Hcn Hv). cbn [filter].
      replace (is_attr_call (attr_call op)) with true by (now destruct op).
      now rewrite releases_not_attr.
    + rewrite (Hpos Hv). cbn [final]. rewrite Hcp. cbn [filter].
      now destruct op.
Qed.

(** An oracle that rejects every attribute write and read with -22. *)
Definition rejecting : env := {|
  respond := fun n c => if is_attr_call c then -22 else nominal_respond n c;
  read_longlong := read_longlong nominal;
  read_string := read_string nominal;
  refilled := refilled nominal;
  signals := signals nominal
|}.

Lemma C6_attribute_failures_witness :
  int32_range (respond rejecting (clock ready)
                 (attr_call (Wr_lli 7 "hardwaregain" 50))) /\
  attr_failure_handling rejecting (Wr_lli 7 "hardwaregain" 50) ready.
Proof.
  split; [unfold int32_range; cbn; lia |].
  apply (C6_attribute_failures rejecting (Wr_lli 7 "hardwaregain" 50) ready).
  unfold int32_range. cbn. lia.
Defined.
